(** * The ATmegaxxxx port layer of FreeRTOS (portable/GCC/ATmegaxxxx/port.c)

    A shallow embedding of the port: the AVR instructions that the two
    context macros are written in, the macros themselves as instruction
    lists, the stack frame builder, the tick source set-up and the tick
    entry points, followed by the properties of the port.

    Conventions.  A byte is a [Z] in [0, 256); a data address and the stack
    pointer are 16-bit values, their wrap-around written with [wrap16].  Data
    memory is one flat map from addresses to bytes: the task stacks, the
    control blocks and the variable [pxCurrentTCB] all live in it.  The
    register file and the I/O registers are kept apart from data memory. *)

From Stdlib Require Import ZArith List Bool Lia Btauto.
Import ListNotations.
Local Open Scope Z_scope.

(* ================================================================= *)
(** ** Bytes, addresses, memory *)

Definition wrap16 (x : Z) : Z := x mod 65536.
Definition lo8 (x : Z) : Z := x mod 256.
Definition hi8 (x : Z) : Z := (x / 256) mod 256.

Definition memory := Z -> Z.

Definition upd (m : memory) (a v : Z) : memory :=
  fun x => if x =? a then v else m x.

Definition regfile := nat -> Z.

Definition set_reg (rf : regfile) (r : nat) (v : Z) : regfile :=
  fun x => if Nat.eqb x r then v else rf x.

(* ================================================================= *)
(** ** The processor state and the instructions used by port.c *)

Module AVR.

Record state := mkState {
  regs  : regfile;   (* r0 .. r31 *)
  sreg  : Z;         (* __SREG__: I T H S V N Z C, bit 7 down to bit 0 *)
  sp    : Z;         (* __SP_H__ : __SP_L__ *)
  pc    : Z;
  rampz : Z;         (* I/O 0x3B *)
  eind  : Z;         (* I/O 0x3C *)
  mem   : memory
}.

(** The I/O locations the macros name. *)
Inductive ioreg := IO_SREG | IO_SP_L | IO_SP_H | IO_0x3B | IO_0x3C.

Inductive instr :=
| PUSH (r : nat)
| POP (r : nat)
| IN (r : nat) (io : ioreg)
| OUT (io : ioreg) (r : nat)
| CLI
| CLR (r : nat)
| LDS (r : nat) (addr : Z)
| LD_Xinc (r : nat)          (* ld r, x+ *)
| ST_Xinc (r : nat)          (* st x+, r *)
| RET.

(** [__tmp_reg__] and [__zero_reg__] of avr-gcc. *)
Definition tmp_reg : nat := 0%nat.
Definition zero_reg : nat := 1%nat.

Definition I_BIT : Z := 7.

Definition interrupts_enabled (s : state) : bool := Z.testbit (sreg s) I_BIT.

Definition with_regs (s : state) (rf : regfile) : state :=
  mkState rf (sreg s) (sp s) (pc s) (rampz s) (eind s) (mem s).
Definition with_sreg (s : state) (v : Z) : state :=
  mkState (regs s) v (sp s) (pc s) (rampz s) (eind s) (mem s).
Definition with_sp (s : state) (v : Z) : state :=
  mkState (regs s) (sreg s) v (pc s) (rampz s) (eind s) (mem s).
Definition with_pc (s : state) (v : Z) : state :=
  mkState (regs s) (sreg s) (sp s) v (rampz s) (eind s) (mem s).
Definition with_rampz (s : state) (v : Z) : state :=
  mkState (regs s) (sreg s) (sp s) (pc s) v (eind s) (mem s).
Definition with_eind (s : state) (v : Z) : state :=
  mkState (regs s) (sreg s) (sp s) (pc s) (rampz s) v (mem s).
Definition with_mem (s : state) (m : memory) : state :=
  mkState (regs s) (sreg s) (sp s) (pc s) (rampz s) (eind s) m.

(** The pointer register X is r27:r26. *)
Definition Xreg (s : state) : Z := wrap16 (regs s 26%nat + 256 * regs s 27%nat).
Definition set_X (s : state) (x : Z) : state :=
  with_regs s (set_reg (set_reg (regs s) 26%nat (lo8 x)) 27%nat (hi8 x)).

(** push: store at SP, then decrement SP. *)
Definition push_byte (v : Z) (s : state) : state :=
  with_sp (with_mem s (upd (mem s) (sp s) v)) (wrap16 (sp s - 1)).

(** pop: increment SP, then load from SP. *)
Definition pop_byte (s : state) : Z * state :=
  let a := wrap16 (sp s + 1) in (mem s a, with_sp s a).

Definition io_read (s : state) (io : ioreg) : Z :=
  match io with
  | IO_SREG => sreg s
  | IO_SP_L => lo8 (sp s)
  | IO_SP_H => hi8 (sp s)
  | IO_0x3B => rampz s
  | IO_0x3C => eind s
  end.

Definition io_write (s : state) (io : ioreg) (v : Z) : state :=
  match io with
  | IO_SREG => with_sreg s v
  | IO_SP_L => with_sp s (256 * hi8 (sp s) + lo8 v)
  | IO_SP_H => with_sp s (256 * lo8 v + lo8 (sp s))
  | IO_0x3B => with_rampz s v
  | IO_0x3C => with_eind s v
  end.

(** clr Rd is eor Rd,Rd: Rd becomes 0, S, V and N are cleared, Z is set. *)
Definition clr_flags (f : Z) : Z :=
  Z.setbit (Z.clearbit (Z.clearbit (Z.clearbit f 4) 3) 2) 1.

(** One instruction.  [pc3] tells whether the device has a 3-byte program
    counter (__AVR_3_BYTE_PC__); it only matters for [RET], which pops the
    return address most significant byte first. *)
Definition exec (pc3 : bool) (i : instr) (s : state) : state :=
  match i with
  | PUSH r => push_byte (regs s r) s
  | POP r => let (v, s') := pop_byte s in with_regs s' (set_reg (regs s') r v)
  | IN r io => with_regs s (set_reg (regs s) r (io_read s io))
  | OUT io r => io_write s io (regs s r)
  | CLI => with_sreg s (Z.clearbit (sreg s) I_BIT)
  | CLR r => with_sreg (with_regs s (set_reg (regs s) r 0)) (clr_flags (sreg s))
  | LDS r a => with_regs s (set_reg (regs s) r (mem s a))
  | LD_Xinc r =>
      let x := Xreg s in
      let v := mem s x in
      let s' := set_X s (wrap16 (x + 1)) in
      with_regs s' (set_reg (regs s') r v)
  | ST_Xinc r =>
      let x := Xreg s in
      set_X (with_mem s (upd (mem s) x (regs s r))) (wrap16 (x + 1))
  | RET =>
      if pc3 then
        let (b2, s1) := pop_byte s in
        let (b1, s2) := pop_byte s1 in
        let (b0, s3) := pop_byte s2 in
        with_pc s3 (65536 * b2 + 256 * b1 + b0)
      else
        let (b1, s1) := pop_byte s in
        let (b0, s2) := pop_byte s1 in
        with_pc s2 (256 * b1 + b0)
  end.

Definition run (pc3 : bool) (p : list instr) (s : state) : state :=
  fold_left (fun st i => exec pc3 i st) p s.

End AVR.

Import AVR.

(* ================================================================= *)
(** ** The context macros *)

Section Port.

(** The address of the variable [pxCurrentTCB] (a link-time constant). *)
Variable pxCurrentTCB : Z.

(** portSAVE_CONTEXT(), in its 3-byte PC and 2-byte PC forms. *)
Definition portSAVE_CONTEXT (pc3 : bool) : list instr :=
  if pc3 then
    [ PUSH tmp_reg;
      IN tmp_reg IO_SREG;
      CLI;
      PUSH tmp_reg;
      IN tmp_reg IO_0x3B;
      PUSH tmp_reg;
      IN tmp_reg IO_0x3C;
      PUSH tmp_reg;
      PUSH zero_reg;
      CLR zero_reg;
      PUSH 2; PUSH 3; PUSH 4; PUSH 5; PUSH 6; PUSH 7; PUSH 8; PUSH 9;
      PUSH 10; PUSH 11; PUSH 12; PUSH 13; PUSH 14; PUSH 15; PUSH 16; PUSH 17;
      PUSH 18; PUSH 19; PUSH 20; PUSH 21; PUSH 22; PUSH 23; PUSH 24; PUSH 25;
      PUSH 26; PUSH 27; PUSH 28; PUSH 29; PUSH 30; PUSH 31;
      LDS 26 pxCurrentTCB;
      LDS 27 (pxCurrentTCB + 1);
      IN tmp_reg IO_SP_L;
      ST_Xinc tmp_reg;
      IN tmp_reg IO_SP_H;
      ST_Xinc tmp_reg ]%nat
  else
    [ PUSH tmp_reg;
      IN tmp_reg IO_SREG;
      CLI;
      PUSH tmp_reg;
      PUSH zero_reg;
      CLR zero_reg;
      PUSH 2; PUSH 3; PUSH 4; PUSH 5; PUSH 6; PUSH 7; PUSH 8; PUSH 9;
      PUSH 10; PUSH 11; PUSH 12; PUSH 13; PUSH 14; PUSH 15; PUSH 16; PUSH 17;
      PUSH 18; PUSH 19; PUSH 20; PUSH 21; PUSH 22; PUSH 23; PUSH 24; PUSH 25;
      PUSH 26; PUSH 27; PUSH 28; PUSH 29; PUSH 30; PUSH 31;
      LDS 26 pxCurrentTCB;
      LDS 27 (pxCurrentTCB + 1);
      IN tmp_reg IO_SP_L;
      ST_Xinc tmp_reg;
      IN tmp_reg IO_SP_H;
      ST_Xinc tmp_reg ]%nat.

(** portRESTORE_CONTEXT(), in its 3-byte PC and 2-byte PC forms. *)
Definition portRESTORE_CONTEXT (pc3 : bool) : list instr :=
  if pc3 then
    [ LDS 26 pxCurrentTCB;
      LDS 27 (pxCurrentTCB + 1);
      LD_Xinc 28;
      OUT IO_SP_L 28;
      LD_Xinc 29;
      OUT IO_SP_H 29;
      POP 31; POP 30; POP 29; POP 28; POP 27; POP 26; POP 25; POP 24;
      POP 23; POP 22; POP 21; POP 20; POP 19; POP 18; POP 17; POP 16;
      POP 15; POP 14; POP 13; POP 12; POP 11; POP 10; POP 9; POP 8;
      POP 7; POP 6; POP 5; POP 4; POP 3; POP 2;
      POP zero_reg;
      POP tmp_reg;
      OUT IO_0x3C tmp_reg;
      POP tmp_reg;
      OUT IO_0x3B tmp_reg;
      POP tmp_reg;
      OUT IO_SREG tmp_reg;
      POP tmp_reg ]%nat
  else
    [ LDS 26 pxCurrentTCB;
      LDS 27 (pxCurrentTCB + 1);
      LD_Xinc 28;
      OUT IO_SP_L 28;
      LD_Xinc 29;
      OUT IO_SP_H 29;
      POP 31; POP 30; POP 29; POP 28; POP 27; POP 26; POP 25; POP 24;
      POP 23; POP 22; POP 21; POP 20; POP 19; POP 18; POP 17; POP 16;
      POP 15; POP 14; POP 13; POP 12; POP 11; POP 10; POP 9; POP 8;
      POP 7; POP 6; POP 5; POP 4; POP 3; POP 2;
      POP zero_reg;
      POP tmp_reg;
      OUT IO_SREG tmp_reg;
      POP tmp_reg ]%nat.

(** The number of instructions of portSAVE_CONTEXT() that come before the
    stack pointer is written to the control block, and the number of bytes
    they push. *)
Definition save_push_len (pc3 : bool) : nat := if pc3 then 40%nat else 36%nat.
Definition context_size (pc3 : bool) : Z := if pc3 then 35 else 33.

Definition save_pushes (pc3 : bool) : list instr :=
  firstn (save_push_len pc3) (portSAVE_CONTEXT pc3).
Definition save_stack_pointer (pc3 : bool) : list instr :=
  skipn (save_push_len pc3) (portSAVE_CONTEXT pc3).

(** The first six instructions of portRESTORE_CONTEXT() load the stack
    pointer from the control block; the rest pop the context. *)
Definition restore_stack_pointer (pc3 : bool) : list instr :=
  firstn 6 (portRESTORE_CONTEXT pc3).
Definition restore_pops (pc3 : bool) : list instr :=
  skipn 6 (portRESTORE_CONTEXT pc3).

(** The control block [pxCurrentTCB] points to, as the macros read it. *)
Definition current_tcb (m : memory) : Z :=
  wrap16 (m pxCurrentTCB + 256 * m (pxCurrentTCB + 1)).

(* ================================================================= *)
(** ** pxPortInitialiseStack *)

Definition portFLAGS_INT_ENABLED : Z := 0x80.

(** A store through [pxTopOfStack] followed by [pxTopOfStack--]. *)
Definition put (v : Z) (st : memory * Z) : memory * Z :=
  (upd (fst st) (snd st) v, wrap16 (snd st - 1)).

(** The cast to [StackType_t] of [usAddress & 0x00ff]. *)
Definition low_byte (usAddress : Z) : Z := Z.land usAddress 0x00ff.

(** The bytes placed first: three known values, then the start address of
    the task as a call to vPortYield() would have left it. *)
Definition put_return_address (pc3 : bool) (pxCode : Z) (st : memory * Z)
  : memory * Z :=
  let st := put 0x11 st in
  let st := put 0x22 st in
  let st := put 0x33 st in
  let usAddress := wrap16 pxCode in
  let st := put (low_byte usAddress) st in
  let usAddress := Z.shiftr usAddress 8 in
  let st := put (low_byte usAddress) st in
  if pc3 then put 0 st else st.

(** The bytes that simulate the stack after portSAVE_CONTEXT(). *)
Definition put_context (pc3 : bool) (pvParameters : Z) (st : memory * Z)
  : memory * Z :=
  let st := put 0x00 st in                    (* R0 *)
  let st := put portFLAGS_INT_ENABLED st in
  let st := if pc3 then put 0x00 (put 0x00 st) else st in   (* EIND, RAMPZ *)
  let st := put 0x00 st in                    (* R1 *)
  let st := put 0x02 st in
  let st := put 0x03 st in
  let st := put 0x04 st in
  let st := put 0x05 st in
  let st := put 0x06 st in
  let st := put 0x07 st in
  let st := put 0x08 st in
  let st := put 0x09 st in
  let st := put 0x10 st in
  let st := put 0x11 st in
  let st := put 0x12 st in
  let st := put 0x13 st in
  let st := put 0x14 st in
  let st := put 0x15 st in
  let st := put 0x16 st in
  let st := put 0x17 st in
  let st := put 0x18 st in
  let st := put 0x19 st in
  let st := put 0x20 st in
  let st := put 0x21 st in
  let st := put 0x22 st in
  let st := put 0x23 st in                    (* R23 *)
  let usAddress := wrap16 pvParameters in
  let st := put (low_byte usAddress) st in
  let usAddress := Z.shiftr usAddress 8 in
  let st := put (low_byte usAddress) st in
  let st := put 0x26 st in
  let st := put 0x27 st in
  let st := put 0x28 st in
  let st := put 0x29 st in
  let st := put 0x30 st in
  let st := put 0x031 st in
  st.

(** [pxPortInitialiseStack pc3 pxTopOfStack pxCode pvParameters m] is the
    memory after the builder ran and the pointer it returns. *)
Definition pxPortInitialiseStack (pc3 : bool) (pxTopOfStack pxCode pvParameters : Z)
    (m : memory) : memory * Z :=
  put_context pc3 pvParameters (put_return_address pc3 pxCode (m, pxTopOfStack)).

End Port.

(* ================================================================= *)
(** ** Sequences of stores below a pointer *)

(** [write_down st bs] stores the bytes [bs] at descending addresses, the
    first one at the pointer [snd st]. *)
Fixpoint write_down (st : memory * Z) (bs : list Z) : memory * Z :=
  match bs with
  | [] => st
  | b :: bs' => write_down (put b st) bs'
  end.

(** The bytes portSAVE_CONTEXT() pushes, in the order it pushes them. *)
Definition saved_context (pc3 : bool) (s : state) : list Z :=
  [regs s 0%nat; sreg s]
  ++ (if pc3 then [rampz s; eind s] else [])
  ++ map (regs s) (seq 1 31).

(** The registers a task is given when it first runs: every register holds
    the known value the builder stores for it, r25:r24 hold the parameter. *)
Definition initial_registers (pvParameters : Z) : regfile :=
  fun r =>
    nth r
      [ 0x00; 0x00; 0x02; 0x03; 0x04; 0x05; 0x06; 0x07; 0x08; 0x09;
        0x10; 0x11; 0x12; 0x13; 0x14; 0x15; 0x16; 0x17; 0x18; 0x19;
        0x20; 0x21; 0x22; 0x23;
        low_byte (wrap16 pvParameters);
        low_byte (Z.shiftr (wrap16 pvParameters) 8);
        0x26; 0x27; 0x28; 0x29; 0x30; 0x31 ] 0.

(** The processor state of a task about to run for the first time, on a
    stack [m] whose pointer is [p]. *)
Definition first_run_state (pvParameters : Z) (m : memory) (p : Z) : state :=
  mkState (initial_registers pvParameters) portFLAGS_INT_ENABLED p 0 0 0 m.

(** The size of the return address on the stack. *)
Definition pc_size (pc3 : bool) : Z := if pc3 then 3 else 2.

(** [a] is one of the [n] addresses [p], [p - 1], ... below the pointer [p]. *)
Definition below (n : nat) (p a : Z) : bool :=
  existsb (fun i => a =? wrap16 (p - Z.of_nat i)) (seq 0 n).

(** Two memories hold the same bytes at the [n] addresses above [p]. *)
Definition same_above (n : nat) (p : Z) (m1 m2 : memory) : bool :=
  forallb (fun i => m1 (wrap16 (p + Z.of_nat i)) =? m2 (wrap16 (p + Z.of_nat i)))
          (seq 1 n).

Section Layout.
Variable pxCurrentTCB : Z.

(** The area portSAVE_CONTEXT() pushes to, the stack pointer field of the
    current control block and the variable pxCurrentTCB do not overlap. *)
Definition save_layout_ok (pc3 : bool) (s : state) : bool :=
  let n := Z.to_nat (context_size pc3) in
  let tcb := current_tcb pxCurrentTCB (mem s) in
  negb (below n (sp s) pxCurrentTCB)
  && negb (below n (sp s) (pxCurrentTCB + 1))
  && negb (below n (sp s) tcb)
  && negb (below n (sp s) (wrap16 (tcb + 1)))
  && negb (tcb =? pxCurrentTCB)
  && negb (tcb =? pxCurrentTCB + 1)
  && negb (wrap16 (tcb + 1) =? pxCurrentTCB)
  && negb (wrap16 (tcb + 1) =? pxCurrentTCB + 1).

End Layout.

(* ================================================================= *)
(** ** The tick source *)

Definition uint8 (x : Z) : Z := x mod 2 ^ 8.
Definition uint32 (x : Z) : Z := x mod 2 ^ 32.
Definition _BV (bit : Z) : Z := Z.shiftl 1 bit.

(** The variables of port.c. *)
Record port_vars := mkPortVars {
  portTickRateHz : Z;
  ticksRemainingInSec : Z
}.

Module WDT.

(** The part of the processor the watchdog set-up acts on. *)
Record hw := mkHw {
  WD_CONTROL_REG : Z;
  SREG : Z;
  tmp : Z;                   (* __tmp_reg__ *)
  restarts : nat             (* the number of wdr executed *)
}.

Section Watchdog.

(** Bit numbers and masks of <avr/io.h> and <avr/wdt.h>, which depend on
    the device. *)
Variables WD_CHANGE_BIT WDE WDIF WDIE WD_PS3_MASK : Z.
(** _SFR_IO_REG_P (_WD_CONTROL_REG): the control register is reached with
    [out] rather than with [sts]. *)
Variable WD_CONTROL_REG_is_io : bool.
(** configTICK_RATE_HZ, portUSE_WDTO and the width of TickType_t. *)
Variables configTICK_RATE_HZ portUSE_WDTO TickType_bits : Z.

Definition in_tmp_SREG (h : hw) : hw :=
  mkHw (WD_CONTROL_REG h) (SREG h) (SREG h) (restarts h).
Definition cli (h : hw) : hw :=
  mkHw (WD_CONTROL_REG h) (Z.clearbit (SREG h) I_BIT) (tmp h) (restarts h).
Definition wdr (h : hw) : hw :=
  mkHw (WD_CONTROL_REG h) (SREG h) (tmp h) (S (restarts h)).
Definition out_control (v : Z) (h : hw) : hw :=
  mkHw v (SREG h) (tmp h) (restarts h).
Definition sts_control (v : Z) (h : hw) : hw :=
  mkHw v (SREG h) (tmp h) (restarts h).
Definition out_SREG_tmp (h : hw) : hw :=
  mkHw (WD_CONTROL_REG h) (tmp h) (tmp h) (restarts h).

Definition wdt_interrupt_enable (value : Z) (h : hw) : hw :=
  let value := uint8 value in
  let op1 := uint8 (Z.lor (_BV WD_CHANGE_BIT) (_BV WDE)) in
  let op2 :=
    uint8 (Z.lor (Z.lor (Z.lor (if Z.land value 0x08 =? 0 then 0x00 else WD_PS3_MASK)
                               (_BV WDIF))
                        (_BV WDIE))
                 (Z.land value 0x07)) in
  if WD_CONTROL_REG_is_io then
    let h := in_tmp_SREG h in
    let h := cli h in
    let h := wdr h in
    let h := out_control op1 h in
    let h := out_SREG_tmp h in
    out_control op2 h
  else
    let h := in_tmp_SREG h in
    let h := cli h in
    let h := wdr h in
    let h := sts_control op1 h in
    let h := out_SREG_tmp h in
    sts_control op2 h.

(** prvSetupTimerInterrupt(), when portUSE_WDTO is defined. *)
Definition prvSetupTimerInterrupt (st : port_vars * hw) : port_vars * hw :=
  let (g, h) := st in
  let h := wdr h in                                      (* wdt_reset() *)
  let g := mkPortVars (configTICK_RATE_HZ mod 2 ^ TickType_bits)
                      (ticksRemainingInSec g) in
  let g := mkPortVars (portTickRateHz g) (portTickRateHz g) in
  (g, wdt_interrupt_enable portUSE_WDTO h).

(** wdt_interrupt_reset_enable: as wdt_interrupt_enable, with the reset bit
    in the value written last. *)
Definition wdt_interrupt_reset_enable (value : Z) (h : hw) : hw :=
  let value := uint8 value in
  let op1 := uint8 (Z.lor (_BV WD_CHANGE_BIT) (_BV WDE)) in
  let op2 :=
    uint8 (Z.lor (Z.lor (Z.lor (Z.lor (if Z.land value 0x08 =? 0 then 0x00 else WD_PS3_MASK)
                                      (_BV WDIF))
                               (_BV WDIE))
                        (_BV WDE))
                 (Z.land value 0x07)) in
  if WD_CONTROL_REG_is_io then
    let h := in_tmp_SREG h in
    let h := cli h in
    let h := wdr h in
    let h := out_control op1 h in
    let h := out_SREG_tmp h in
    out_control op2 h
  else
    let h := in_tmp_SREG h in
    let h := cli h in
    let h := wdr h in
    let h := sts_control op1 h in
    let h := out_SREG_tmp h in
    sts_control op2 h.

End Watchdog.
End WDT.

Module Timer0.

Record hw := mkHw {
  OCR0A : Z;
  TCCR0A : Z;
  TCCR0B : Z;
  TIMSK0 : Z
}.

Definition portCLOCK_PRESCALER : Z := 1024.

Section Timer.

(** Bit numbers of <avr/io.h>. *)
Variables WGM01 CS02 CS00 OCIE0A : Z.
(** configCPU_CLOCK_HZ, configTICK_RATE_HZ and the width of TickType_t. *)
Variables configCPU_CLOCK_HZ configTICK_RATE_HZ TickType_bits : Z.

Definition portCLEAR_COUNTER_ON_MATCH : Z := uint8 (_BV WGM01).
Definition portPRESCALE_1024 : Z := uint8 (Z.lor (_BV CS02) (_BV CS00)).
Definition portCOMPARE_MATCH_A_INTERRUPT_ENABLE : Z := uint8 (_BV OCIE0A).

(** prvSetupTimerInterrupt(), when portUSE_TIMER0 is defined.  A division
    by zero has no defined result: [None]. *)
Definition prvSetupTimerInterrupt (st : port_vars * hw) : option (port_vars * hw) :=
  let (g, h) := st in
  if configTICK_RATE_HZ =? 0 then None else
  let ulCompareMatch := uint32 (configCPU_CLOCK_HZ / configTICK_RATE_HZ) in
  let ulCompareMatch := uint32 (ulCompareMatch / portCLOCK_PRESCALER) in
  let divisor := uint32 (portCLOCK_PRESCALER * ulCompareMatch) in
  if divisor =? 0 then None else
  let g := mkPortVars (uint32 (uint32 configCPU_CLOCK_HZ / divisor) mod 2 ^ TickType_bits)
                      (ticksRemainingInSec g) in
  let g := mkPortVars (portTickRateHz g) (portTickRateHz g) in
  let ulCompareMatch := uint32 (ulCompareMatch - 1) in
  let ucLowByte := uint8 (Z.land ulCompareMatch 0xff) in
  let h := mkHw ucLowByte (TCCR0A h) (TCCR0B h) (TIMSK0 h) in
  let h := mkHw (OCR0A h) portCLEAR_COUNTER_ON_MATCH (TCCR0B h) (TIMSK0 h) in
  let h := mkHw (OCR0A h) (TCCR0A h) portPRESCALE_1024 (TIMSK0 h) in
  let ucLowByte := TIMSK0 h in
  let ucLowByte := uint8 (Z.lor ucLowByte portCOMPARE_MATCH_A_INTERRUPT_ENABLE) in
  let h := mkHw (OCR0A h) (TCCR0A h) (TCCR0B h) ucLowByte in
  Some (g, h).

End Timer.

Section Stop.

(** Bit numbers of <avr/io.h>. *)
Variables OCIE0B OCIE0A TOIE0 : Z.

(** vPortEndScheduler(), when portUSE_TIMER0 is defined: all Timer0
    interrupts are disabled. *)
Definition vPortEndScheduler (h : hw) : hw :=
  mkHw (OCR0A h) (TCCR0A h) (TCCR0B h)
       (uint8 (Z.land (TIMSK0 h)
                      (Z.lnot (Z.lor (Z.lor (_BV OCIE0B) (_BV OCIE0A)) (_BV TOIE0))))).

End Stop.
End Timer0.

(* ================================================================= *)
(** ** The entry points *)

Module Entry.

(** What an entry point does, in order: the two context macros, the calls
    into the scheduler core and the closing return instruction. *)
Inductive action :=
| A_portSAVE_CONTEXT
| A_portRESTORE_CONTEXT
| A_xTaskIncrementTick
| A_vTaskSwitchContext
| A_ret
| A_reti.

Definition action_eqb (a b : action) : bool :=
  match a, b with
  | A_portSAVE_CONTEXT, A_portSAVE_CONTEXT
  | A_portRESTORE_CONTEXT, A_portRESTORE_CONTEXT
  | A_xTaskIncrementTick, A_xTaskIncrementTick
  | A_vTaskSwitchContext, A_vTaskSwitchContext
  | A_ret, A_ret
  | A_reti, A_reti => true
  | _, _ => false
  end.

Definition pdFALSE : Z := 0.

Section Core.

(** The scheduler core: its state, and the two operations the port calls.
    The core does not name the variables of port.c. *)
Variable K : Type.
Variable xTaskIncrementTick : K -> Z * K.
Variable vTaskSwitchContext : K -> K.

Record world := mkWorld {
  core : K;
  vars : port_vars;
  log : list action           (* oldest first *)
}.

Definition note (a : action) (w : world) : world :=
  mkWorld (core w) (vars w) (log w ++ [a]).

Definition call_xTaskIncrementTick (w : world) : Z * world :=
  let (r, k) := xTaskIncrementTick (core w) in
  (r, note A_xTaskIncrementTick (mkWorld k (vars w) (log w))).

Definition call_vTaskSwitchContext (w : world) : world :=
  note A_vTaskSwitchContext (mkWorld (vTaskSwitchContext (core w)) (vars w) (log w)).

Definition vPortYield (w : world) : world :=
  let w := note A_portSAVE_CONTEXT w in
  let w := call_vTaskSwitchContext w in
  let w := note A_portRESTORE_CONTEXT w in
  note A_ret w.

Definition vPortYieldFromTick (w : world) : world :=
  let w := note A_portSAVE_CONTEXT w in
  let (r, w) := call_xTaskIncrementTick w in
  let w := if negb (r =? pdFALSE) then call_vTaskSwitchContext w else w in
  let w := note A_portRESTORE_CONTEXT w in
  note A_ret w.

(** ISR(portSCHEDULER_ISR), for either value of configUSE_PREEMPTION. *)
Definition portSCHEDULER_ISR (configUSE_PREEMPTION : Z) (w : world) : world :=
  if configUSE_PREEMPTION =? 1 then
    let w := vPortYieldFromTick w in
    note A_reti w
  else
    snd (call_xTaskIncrementTick w).

(** The number of times an action was taken. *)
Definition times (a : action) (w : world) : nat :=
  length (filter (action_eqb a) (log w)).

(** [n] tick interrupts in a row. *)
Fixpoint ticks (configUSE_PREEMPTION : Z) (n : nat) (w : world) : world :=
  match n with
  | O => w
  | S n' => ticks configUSE_PREEMPTION n' (portSCHEDULER_ISR configUSE_PREEMPTION w)
  end.

End Core.

Arguments mkWorld {K}.
Arguments core {K}.
Arguments vars {K}.
Arguments log {K}.
Arguments note {K}.
Arguments call_xTaskIncrementTick {K}.
Arguments call_vTaskSwitchContext {K}.
Arguments vPortYield {K}.
Arguments vPortYieldFromTick {K}.
Arguments portSCHEDULER_ISR {K}.
Arguments times {K}.
Arguments ticks {K}.

End Entry.

(* ================================================================= *)
(** ** Notions used to state the properties of the context macros *)

(** The address the stack pointer reaches from [p] after [k] pops. *)
Definition pops_addr (p : Z) (k : nat) : Z :=
  Nat.iter k (fun a => wrap16 (a + 1)) p.

(** The stack pointer stored in the control block pxCurrentTCB points to:
    low byte at offset 0, high byte at offset 1. *)
Definition tcb_sp (pxCurrentTCB : Z) (m : memory) : Z :=
  let tcb := current_tcb pxCurrentTCB m in
  256 * lo8 (m (wrap16 (tcb + 1))) + lo8 (m tcb).

(** The bytes the builder stores before the context: three known values
    and the return address. *)
Definition return_address_bytes (pc3 : bool) (pxCode : Z) : list Z :=
  [0x11; 0x22; 0x33;
   low_byte (wrap16 pxCode);
   low_byte (Z.shiftr (wrap16 pxCode) 8)]
  ++ (if pc3 then [0] else []).

(** The position, counted from 1, of the pops of portRESTORE_CONTEXT() that
    load r0 and the status register. *)
Definition r0_pop (pc3 : bool) : nat := if pc3 then 35%nat else 33%nat.
Definition sreg_pop (pc3 : bool) : nat := if pc3 then 34%nat else 32%nat.

(** The index of register [r] among the bytes portSAVE_CONTEXT() pushes. *)
Definition reg_slot (pc3 : bool) (r : nat) : nat :=
  (r + if pc3 then 3 else 1)%nat.

(** Everything the builder stores, first byte first. *)
Definition frame_bytes (pc3 : bool) (pxCode pvParameters : Z) : list Z :=
  return_address_bytes pc3 pxCode
  ++ saved_context pc3 (first_run_state pvParameters (fun _ => 0) 0).

Definition frame_size (pc3 : bool) : nat := if pc3 then 41%nat else 38%nat.

Definition is_push (i : instr) : bool :=
  match i with PUSH _ => true | _ => false end.

(* ================================================================= *)
(** ** Concrete inputs *)

(** A running task on a 2-byte PC device: pxCurrentTCB is at 0x0100 and
    points to a control block at 0x0200, the stack pointer is 0x08FF. *)
Definition example_state : state :=
  mkState (fun r => Z.of_nat r + 100) 0x83 0x08FF 0x1234 1 2
          (fun a => if a =? 0x0101 then 0x02 else 0).

(** A new task with entry point 0x1234 and parameter 0xBEEF, its stack
    built from 0x08FF down, its control block at 0x0200. *)
Definition example_frame : memory * Z :=
  pxPortInitialiseStack false 0x08FF 0x1234 0xBEEF (fun _ => 0).

Definition example_first_state : state :=
  mkState (fun _ => 0) 0 0 0 0 0
    (upd (upd (upd (upd (fst example_frame) 0x0100 0x00) 0x0101 0x02)
              0x0200 (lo8 (snd example_frame))) 0x0201 (hi8 (snd example_frame))).

(* ================================================================= *)
(** ** The naked entry points on the processor *)

Module Naked.
Section Core.

Variable pxCurrentTCB : Z.
Variable pc3 : bool.

(** The two operations of the scheduler core, as compiled functions: each
    takes the processor from the call to the return; xTaskIncrementTick
    also gives its result. *)
Variable xTaskIncrementTick : state -> Z * state.
Variable vTaskSwitchContext : state -> state.

Definition vPortYield (s : state) : state :=
  let s := run pc3 (portSAVE_CONTEXT pxCurrentTCB pc3) s in
  let s := vTaskSwitchContext s in
  let s := run pc3 (portRESTORE_CONTEXT pxCurrentTCB pc3) s in
  run pc3 [RET] s.

Definition vPortYieldFromTick (s : state) : state :=
  let s := run pc3 (portSAVE_CONTEXT pxCurrentTCB pc3) s in
  let (r, s) := xTaskIncrementTick s in
  let s := if negb (r =? Entry.pdFALSE) then vTaskSwitchContext s else s in
  let s := run pc3 (portRESTORE_CONTEXT pxCurrentTCB pc3) s in
  run pc3 [RET] s.

(** xPortStartScheduler(): [prvSetupTimerInterrupt] is the set-up of the
    tick source chosen at build time, acting on the timer hardware [T]. *)
Definition xPortStartScheduler {T : Type} (prvSetupTimerInterrupt : T -> option T)
    (st : T * state) : option (T * state) :=
  let (t, s) := st in
  match prvSetupTimerInterrupt t with
  | None => None
  | Some t =>
      let s := run pc3 (portRESTORE_CONTEXT pxCurrentTCB pc3) s in
      Some (t, run pc3 [RET] s)
  end.

End Core.
End Naked.

(** A state the scheduler core may leave [example_state]'s task in: the
    same memory, every register overwritten. *)
Definition example_core (s : state) : state :=
  mkState (fun _ => 0xAA) 0 (sp s) 0x5555 0x77 0x77 (mem s).

(* ================================================================= *)
(** ** The tick paths and the variables of port.c *)

Module Globals.

(** portTickRateHz and ticksRemainingInSec are not static: code outside
    port.c can assign them, xTaskIncrementTick() and what it calls (the
    tick hook of the application) included.  Here the two operations of
    the scheduler core act on the state of the core together with the
    variables of port.c; the context macros act on the processor and are
    left out. *)
Section Core.

Variable K : Type.
Variable xTaskIncrementTick : K * port_vars -> Z * (K * port_vars).
Variable vTaskSwitchContext : K * port_vars -> K * port_vars.

Definition vPortYieldFromTick (st : K * port_vars) : K * port_vars :=
  let (r, st) := xTaskIncrementTick st in
  if negb (r =? Entry.pdFALSE) then vTaskSwitchContext st else st.

Definition portSCHEDULER_ISR (configUSE_PREEMPTION : Z) (st : K * port_vars)
  : K * port_vars :=
  if configUSE_PREEMPTION =? 1 then vPortYieldFromTick st
  else snd (xTaskIncrementTick st).

Fixpoint ticks (configUSE_PREEMPTION : Z) (n : nat) (st : K * port_vars)
  : K * port_vars :=
  match n with
  | O => st
  | S n' => ticks configUSE_PREEMPTION n' (portSCHEDULER_ISR configUSE_PREEMPTION st)
  end.

End Core.

Arguments vPortYieldFromTick {K}.
Arguments portSCHEDULER_ISR {K}.
Arguments ticks {K}.

End Globals.

(** A scheduler core that leaves the variables of port.c alone, and one
    whose tick keeps the count of the second: it decrements
    ticksRemainingInSec and sets it back to portTickRateHz at zero. *)
Definition core_tick_plain (st : unit * port_vars) : Z * (unit * port_vars) := (1, st).

Definition core_tick_counting (st : unit * port_vars) : Z * (unit * port_vars) :=
  let g := snd st in
  let left := ticksRemainingInSec g - 1 in
  (1, (tt, mkPortVars (portTickRateHz g)
                      (if left =? 0 then portTickRateHz g else left))).

(* ================================================================= *)
(** ** Data addresses that are not registers *)

(** On the ATmega the data addresses 0x00 .. 0x1F are r0 .. r31 and
    0x20 .. 0x5F are the I/O registers, the stack pointer, the status
    register, RAMPZ and EIND among them.  [AVR.state] keeps these apart
    from [mem], so a load or store through a data address is what [exec]
    says it is only when the address is 0x60 or more. *)
Definition not_register_address (a : Z) : bool := 0x60 <=? a.

(** Every data address portSAVE_CONTEXT() uses is such an address: the
    bytes it pushes to, the two bytes of pxCurrentTCB it reads and the
    two bytes of the control block it writes. *)
Definition save_touches_no_register (pxCurrentTCB : Z) (pc3 : bool) (s : state) : bool :=
  let tcb := current_tcb pxCurrentTCB (mem (run pc3 (save_pushes pxCurrentTCB pc3) s)) in
  forallb (fun i => not_register_address (wrap16 (sp s - Z.of_nat i)))
          (seq 0 (Z.to_nat (context_size pc3)))
  && not_register_address pxCurrentTCB
  && not_register_address (pxCurrentTCB + 1)
  && not_register_address tcb
  && not_register_address (wrap16 (tcb + 1)).

(** [example_state] with the stack pointer at 0x0210: the area the save
    pushes to covers the control block at 0x0200. *)
Definition overlapping_state : state :=
  mkState (fun r => Z.of_nat r + 100) 0x83 0x0210 0x1234 1 2
          (fun a => if a =? 0x0101 then 0x02 else 0).

(* ================================================================= *)
(** * Properties *)

(* ================================================================= *)
(** ** Addresses and bytes *)

Lemma wrap16_range x : 0 <= wrap16 x < 65536.
Proof. unfold wrap16. apply Z.mod_pos_bound. lia. Qed.

Lemma wrap16_small x : 0 <= x < 65536 -> wrap16 x = x.
Proof. unfold wrap16. intros. apply Z.mod_small. assumption. Qed.

Lemma wrap16_add_l a b : wrap16 (wrap16 a + b) = wrap16 (a + b).
Proof. unfold wrap16. apply Zplus_mod_idemp_l. Qed.

Lemma wrap16_sub_l a b : wrap16 (wrap16 a - b) = wrap16 (a - b).
Proof. unfold wrap16. apply Zminus_mod_idemp_l. Qed.

Lemma wrap16_down_inj a i j :
  0 <= i < 65536 -> 0 <= j < 65536 ->
  wrap16 (a - i) = wrap16 (a - j) -> i = j.
Proof.
  unfold wrap16. intros Hi Hj H.
  assert (E : (i - j) mod 65536 = 0).
  { replace (i - j) with ((a - j) - (a - i)) by ring.
    rewrite Zminus_mod, H, Z.sub_diag. reflexivity. }
  apply Z.mod_divide in E; [| lia].
  destruct E as [k E]. lia.
Qed.

Lemma lo8_hi8 x : 0 <= x < 65536 -> 256 * hi8 x + lo8 x = x.
Proof.
  unfold hi8, lo8. intros H.
  rewrite (Z.mod_small (x / 256)).
  - symmetry. apply Z.div_mod. lia.
  - split; [apply Z.div_pos; lia | apply Z.div_lt_upper_bound; lia].
Qed.

Lemma lo8_lo8 x : lo8 (lo8 x) = lo8 x.
Proof. unfold lo8. apply Z.mod_mod. lia. Qed.

Lemma lo8_hi8_id x : lo8 (hi8 x) = hi8 x.
Proof. unfold lo8, hi8. apply Z.mod_mod. lia. Qed.

Lemma upd_same m a v : upd m a v a = v.
Proof. unfold upd. rewrite Z.eqb_refl. reflexivity. Qed.

Lemma upd_other m a v x : x <> a -> upd m a v x = m x.
Proof. unfold upd. intros H. apply Z.eqb_neq in H. rewrite H. reflexivity. Qed.

Lemma write_down_ptr bs : forall m a,
  0 <= a < 65536 ->
  snd (write_down (m, a) bs) = wrap16 (a - Z.of_nat (length bs)).
Proof.
  induction bs as [| b bs IH]; intros m a Ha.
  - simpl. rewrite Z.sub_0_r. symmetry. apply wrap16_small. exact Ha.
  - cbn [write_down length].
    change (put b (m, a)) with (upd m a b, wrap16 (a - 1)).
    rewrite IH by apply wrap16_range.
    rewrite wrap16_sub_l. f_equal. lia.
Qed.

Lemma write_down_other bs : forall m a x,
  0 <= a < 65536 ->
  (forall i, (i < length bs)%nat -> x <> wrap16 (a - Z.of_nat i)) ->
  fst (write_down (m, a) bs) x = m x.
Proof.
  induction bs as [| b bs IH]; intros m a x Ha Hx.
  - reflexivity.
  - cbn [write_down].
    change (put b (m, a)) with (upd m a b, wrap16 (a - 1)). rewrite IH.
    + apply upd_other. specialize (Hx 0%nat). cbn [length] in Hx.
      rewrite Z.sub_0_r, wrap16_small in Hx by assumption. apply Hx. lia.
    + apply wrap16_range.
    + intros i Hi. rewrite wrap16_sub_l.
      replace (a - 1 - Z.of_nat i) with (a - Z.of_nat (S i)) by lia.
      apply Hx. cbn [length]. lia.
Qed.

Lemma write_down_get bs : forall m a i,
  0 <= a < 65536 ->
  Z.of_nat (length bs) <= 65536 ->
  (i < length bs)%nat ->
  fst (write_down (m, a) bs) (wrap16 (a - Z.of_nat i)) = nth i bs 0.
Proof.
  induction bs as [| b bs IH]; intros m a i Ha Hlen Hi.
  - cbn [length] in Hi. lia.
  - cbn [length] in Hlen, Hi. cbn [write_down].
    change (put b (m, a)) with (upd m a b, wrap16 (a - 1)).
    destruct i as [| i].
    + cbn [nth]. rewrite write_down_other.
      * rewrite Z.sub_0_r, wrap16_small by assumption. apply upd_same.
      * apply wrap16_range.
      * intros j Hj E. rewrite wrap16_sub_l in E.
        replace (a - 1 - Z.of_nat j) with (a - (Z.of_nat j + 1)) in E by lia.
        apply wrap16_down_inj in E; lia.
    + cbn [nth].
      replace (a - Z.of_nat (S i)) with (a - 1 - Z.of_nat i) by lia.
      rewrite <- (wrap16_sub_l (a - 1)). apply IH; [apply wrap16_range | lia | lia].
Qed.

(* ================================================================= *)
(** ** Symbolic execution of the macros *)

Ltac symex :=
  cbv [run fold_left exec portSAVE_CONTEXT portRESTORE_CONTEXT save_pushes save_stack_pointer
       restore_stack_pointer restore_pops save_push_len firstn skipn
       push_byte pop_byte io_read io_write with_regs with_sreg with_sp with_pc
       with_rampz with_eind with_mem set_X Xreg tmp_reg zero_reg
       regs sreg sp pc rampz eind mem set_reg Nat.eqb
       pxPortInitialiseStack put_context put_return_address return_address_bytes
       first_run_state initial_registers nth
       write_down put saved_context app map seq fst snd pops_addr Nat.iter nat_rect].

Ltac symex_sreg :=
  cbv [run fold_left exec portSAVE_CONTEXT firstn
       push_byte pop_byte io_read io_write with_regs with_sreg with_sp with_pc
       with_rampz with_eind with_mem set_X Xreg tmp_reg zero_reg
       regs sreg sp pc rampz eind mem interrupts_enabled].

Lemma run_app pc3 p q s : run pc3 (p ++ q) s = run pc3 q (run pc3 p s).
Proof. unfold run. apply fold_left_app. Qed.

Section Macros.
Variable pxCurrentTCB : Z.

Lemma save_split pc3 :
  portSAVE_CONTEXT pxCurrentTCB pc3
  = save_pushes pxCurrentTCB pc3 ++ save_stack_pointer pxCurrentTCB pc3.
Proof. symmetry. apply firstn_skipn. Qed.

Lemma restore_split pc3 :
  portRESTORE_CONTEXT pxCurrentTCB pc3
  = restore_stack_pointer pxCurrentTCB pc3 ++ restore_pops pxCurrentTCB pc3.
Proof. symmetry. apply firstn_skipn. Qed.

Lemma save_pushes_mem pc3 s :
  mem (run pc3 (save_pushes pxCurrentTCB pc3) s)
  = fst (write_down (mem s, sp s) (saved_context pc3 s)).
Proof. destruct s, pc3; symex; reflexivity. Qed.

Lemma save_pushes_sp pc3 s :
  sp (run pc3 (save_pushes pxCurrentTCB pc3) s)
  = snd (write_down (mem s, sp s) (saved_context pc3 s)).
Proof. destruct s, pc3; symex; reflexivity. Qed.

Lemma builder_is_write_down pc3 top code param m :
  pxPortInitialiseStack pc3 top code param m
  = write_down (write_down (m, top) (return_address_bytes pc3 code))
      (saved_context pc3
         (first_run_state param
            (fst (put_return_address pc3 code (m, top)))
            (snd (put_return_address pc3 code (m, top))))).
Proof. destruct pc3; symex; reflexivity. Qed.

Lemma X_after_increment y :
  wrap16 (lo8 (wrap16 y) + 256 * hi8 (wrap16 y)) = wrap16 y.
Proof using.
  pose proof (wrap16_range y) as H.
  rewrite Z.add_comm, lo8_hi8 by exact H.
  apply wrap16_small. exact H.
Qed.

Lemma lo8_of_sp a b : lo8 (256 * a + lo8 b) = lo8 b.
Proof using.
  unfold lo8. rewrite Z.add_comm, Z.mul_comm, Z_mod_plus_full.
  apply Z.mod_mod. lia.
Qed.

(** portSAVE_CONTEXT(), the store of the stack pointer. *)
Lemma save_stack_pointer_mem pc3 s :
  mem (run pc3 (save_stack_pointer pxCurrentTCB pc3) s)
  = let tcb := current_tcb pxCurrentTCB (mem s) in
    upd (upd (mem s) tcb (lo8 (sp s))) (wrap16 (tcb + 1)) (hi8 (sp s)).
Proof using.
  destruct s, pc3; symex; rewrite X_after_increment; reflexivity.
Qed.

Lemma save_stack_pointer_sp pc3 s :
  sp (run pc3 (save_stack_pointer pxCurrentTCB pc3) s) = sp s.
Proof using. destruct s, pc3; reflexivity. Qed.

Lemma save_stack_pointer_high_regs pc3 s r :
  (32 <= r)%nat ->
  regs (run pc3 (save_stack_pointer pxCurrentTCB pc3) s) r = regs s r.
Proof using.
  intros H. do 32 (destruct r as [| r]; [lia |]).
  destruct s, pc3; reflexivity.
Qed.

Lemma save_pushes_high_regs pc3 s r :
  (32 <= r)%nat ->
  regs (run pc3 (save_pushes pxCurrentTCB pc3) s) r = regs s r.
Proof using.
  intros H. do 32 (destruct r as [| r]; [lia |]).
  destruct s, pc3; reflexivity.
Qed.

(** portRESTORE_CONTEXT(), the load of the stack pointer. *)
Lemma restore_stack_pointer_sp pc3 s :
  sp (run pc3 (restore_stack_pointer pxCurrentTCB pc3) s) = tcb_sp pxCurrentTCB (mem s).
Proof using.
  destruct s, pc3; symex; rewrite X_after_increment, lo8_of_sp; reflexivity.
Qed.

Lemma restore_stack_pointer_mem pc3 s :
  mem (run pc3 (restore_stack_pointer pxCurrentTCB pc3) s) = mem s.
Proof using. destruct s, pc3; reflexivity. Qed.

Lemma restore_stack_pointer_high_regs pc3 s r :
  (32 <= r)%nat ->
  regs (run pc3 (restore_stack_pointer pxCurrentTCB pc3) s) r = regs s r.
Proof using.
  intros H. do 32 (destruct r as [| r]; [lia |]).
  destruct s, pc3; reflexivity.
Qed.

Lemma restore_stack_pointer_other pc3 s :
  let s' := run pc3 (restore_stack_pointer pxCurrentTCB pc3) s in
  sreg s' = sreg s /\ pc s' = pc s /\ rampz s' = rampz s /\ eind s' = eind s.
Proof using. destruct s, pc3; repeat split. Qed.

(** portRESTORE_CONTEXT(), the pops: what each register receives. *)
Lemma restore_pops_regs pc3 s r :
  (1 <= r <= 31)%nat ->
  regs (run pc3 (restore_pops pxCurrentTCB pc3) s) r
  = mem s (pops_addr (sp s) (32 - r)).
Proof using.
  intros H. destruct r as [| r]; [lia |].
  do 31 (destruct r as [| r]; [destruct s, pc3; reflexivity |]).
  lia.
Qed.

Lemma restore_pops_r0 pc3 s :
  regs (run pc3 (restore_pops pxCurrentTCB pc3) s) 0%nat
  = mem s (pops_addr (sp s) (r0_pop pc3)).
Proof using. destruct s, pc3; reflexivity. Qed.

Lemma restore_pops_sreg pc3 s :
  sreg (run pc3 (restore_pops pxCurrentTCB pc3) s)
  = mem s (pops_addr (sp s) (sreg_pop pc3)).
Proof using. destruct s, pc3; reflexivity. Qed.

Lemma restore_pops_extended s :
  rampz (run true (restore_pops pxCurrentTCB true) s) = mem s (pops_addr (sp s) 33)
  /\ eind (run true (restore_pops pxCurrentTCB true) s) = mem s (pops_addr (sp s) 32)
  /\ rampz (run false (restore_pops pxCurrentTCB false) s) = rampz s
  /\ eind (run false (restore_pops pxCurrentTCB false) s) = eind s.
Proof using. destruct s; repeat split. Qed.

Lemma restore_pops_sp pc3 s :
  sp (run pc3 (restore_pops pxCurrentTCB pc3) s) = pops_addr (sp s) (r0_pop pc3).
Proof using. destruct s, pc3; reflexivity. Qed.

Lemma restore_pops_mem_pc pc3 s :
  mem (run pc3 (restore_pops pxCurrentTCB pc3) s) = mem s
  /\ pc (run pc3 (restore_pops pxCurrentTCB pc3) s) = pc s.
Proof using. destruct s, pc3; split; reflexivity. Qed.

Lemma restore_pops_high_regs pc3 s r :
  (32 <= r)%nat ->
  regs (run pc3 (restore_pops pxCurrentTCB pc3) s) r = regs s r.
Proof using.
  intros H. do 32 (destruct r as [| r]; [lia |]).
  destruct s, pc3; reflexivity.
Qed.

End Macros.

Lemma pops_addr_eq k : forall p,
  0 <= p < 65536 -> pops_addr p k = wrap16 (p + Z.of_nat k).
Proof.
  induction k as [| k IH]; intros p Hp.
  - cbn [pops_addr Nat.iter nat_rect]. rewrite Z.add_0_r. symmetry.
    apply wrap16_small. exact Hp.
  - change (pops_addr p (S k)) with (wrap16 (pops_addr p k + 1)).
    rewrite IH, wrap16_add_l by exact Hp. f_equal. lia.
Qed.

Lemma below_false n p a :
  below n p a = false ->
  forall i, (i < n)%nat -> a <> wrap16 (p - Z.of_nat i).
Proof.
  intros H i Hi E.
  assert (T : below n p a = true).
  { unfold below. apply existsb_exists. exists i. split.
    - apply in_seq. lia.
    - apply Z.eqb_eq. exact E. }
  congruence.
Qed.

Lemma saved_context_length pc3 s :
  Z.of_nat (length (saved_context pc3 s)) = context_size pc3.
Proof. destruct pc3; reflexivity. Qed.

Lemma saved_context_reg pc3 s r :
  (1 <= r <= 31)%nat ->
  nth (reg_slot pc3 r) (saved_context pc3 s) 0 = regs s r.
Proof.
  intros H. destruct r as [| r]; [lia |].
  do 31 (destruct r as [| r]; [destruct pc3; reflexivity |]).
  lia.
Qed.

Lemma wrap16_succ_neq a : 0 <= a < 65536 -> wrap16 (a + 1) <> a.
Proof.
  intros H. unfold wrap16.
  destruct (Z.eq_dec a 65535) as [-> | N].
  - vm_compute. discriminate.
  - rewrite Z.mod_small by lia. lia.
Qed.

Lemma current_tcb_range p m : 0 <= current_tcb p m < 65536.
Proof. apply wrap16_range. Qed.

Section Symmetry.
Variable pxCurrentTCB : Z.
Variable pc3 : bool.
Variable s : state.

Hypothesis sp_range : 0 <= sp s < 65536.
Hypothesis layout : save_layout_ok pxCurrentTCB pc3 s = true.

Let n := Z.to_nat (context_size pc3).
Let tcb := current_tcb pxCurrentTCB (mem s).
Let s1 := run pc3 (save_pushes pxCurrentTCB pc3) s.
Let s2 := run pc3 (save_stack_pointer pxCurrentTCB pc3) s1.

Lemma layout_facts :
  (forall i, (i < n)%nat -> pxCurrentTCB <> wrap16 (sp s - Z.of_nat i))
  /\ (forall i, (i < n)%nat -> pxCurrentTCB + 1 <> wrap16 (sp s - Z.of_nat i))
  /\ (forall i, (i < n)%nat -> tcb <> wrap16 (sp s - Z.of_nat i))
  /\ (forall i, (i < n)%nat -> wrap16 (tcb + 1) <> wrap16 (sp s - Z.of_nat i))
  /\ tcb <> pxCurrentTCB /\ tcb <> pxCurrentTCB + 1
  /\ wrap16 (tcb + 1) <> pxCurrentTCB /\ wrap16 (tcb + 1) <> pxCurrentTCB + 1.
Proof.
  unfold save_layout_ok in layout. fold n tcb in layout.
  repeat (apply andb_prop in layout; destruct layout as [layout ?]).
  repeat match goal with
         | H : negb _ = true |- _ => apply negb_true_iff in H
         | H : (_ =? _) = false |- _ => apply Z.eqb_neq in H
         end.
  repeat split; try assumption; apply below_false; assumption.
Qed.

Lemma length_n : length (saved_context pc3 s) = n.
Proof. unfold n. rewrite <- saved_context_length with (s := s). lia. Qed.

Lemma s1_sp : sp s1 = wrap16 (sp s - Z.of_nat n).
Proof.
  unfold s1. rewrite save_pushes_sp, write_down_ptr, length_n by exact sp_range.
  reflexivity.
Qed.

Lemma s1_mem_outside a :
  (forall i, (i < n)%nat -> a <> wrap16 (sp s - Z.of_nat i)) ->
  mem s1 a = mem s a.
Proof.
  intros H. unfold s1. rewrite save_pushes_mem.
  apply write_down_other; [exact sp_range | rewrite length_n; exact H].
Qed.

Lemma s1_tcb : current_tcb pxCurrentTCB (mem s1) = tcb.
Proof.
  destruct layout_facts as [A [B _]].
  unfold current_tcb. rewrite !s1_mem_outside by assumption. reflexivity.
Qed.

Lemma s2_mem :
  mem s2 = upd (upd (mem s1) tcb (lo8 (sp s1))) (wrap16 (tcb + 1)) (hi8 (sp s1)).
Proof.
  unfold s2. rewrite save_stack_pointer_mem. cbv zeta. rewrite s1_tcb. reflexivity.
Qed.

Lemma s2_tcb : current_tcb pxCurrentTCB (mem s2) = tcb.
Proof.
  destruct layout_facts as [_ [_ [_ [_ [A [B [C D]]]]]]].
  unfold current_tcb at 1. rewrite s2_mem.
  rewrite !upd_other by congruence. apply s1_tcb.
Qed.

Lemma s2_tcb_sp : tcb_sp pxCurrentTCB (mem s2) = sp s1.
Proof.
  unfold tcb_sp. cbv zeta. rewrite s2_tcb, s2_mem.
  rewrite upd_same.
  rewrite (upd_other _ _ _ tcb), upd_same.
  - rewrite lo8_hi8_id, lo8_lo8. apply lo8_hi8.
    rewrite s1_sp. apply wrap16_range.
  - intros E. apply (wrap16_succ_neq tcb); [apply current_tcb_range | congruence].
Qed.

(** The k-th byte popped by the restore is the byte the save pushed k-th
    from last. *)
Lemma popped_byte k :
  (1 <= k <= n)%nat ->
  mem s2 (pops_addr (sp s1) k) = nth (n - k) (saved_context pc3 s) 0.
Proof.
  intros Hk.
  destruct layout_facts as [_ [_ [A [B _]]]].
  assert (Hn : Z.of_nat n = context_size pc3).
  { unfold n. destruct pc3; reflexivity. }
  assert (Hn' : Z.of_nat n <= 35) by (rewrite Hn; destruct pc3; cbn; lia).
  rewrite pops_addr_eq by (rewrite s1_sp; apply wrap16_range).
  rewrite s1_sp, wrap16_add_l.
  replace (sp s - Z.of_nat n + Z.of_nat k) with (sp s - Z.of_nat (n - k)) by lia.
  rewrite s2_mem, !upd_other.
  - unfold s1. rewrite save_pushes_mem. apply write_down_get.
    + exact sp_range.
    + rewrite length_n. lia.
    + rewrite length_n. lia.
  - intros E. apply (A (n - k)%nat); [lia | auto].
  - intros E. apply (B (n - k)%nat); [lia | auto].
Qed.

End Symmetry.

Lemma save_keeps_pc_and_extended pxCurrentTCB pc3 s :
  let s' := run pc3 (portSAVE_CONTEXT pxCurrentTCB pc3) s in
  pc s' = pc s /\ rampz s' = rampz s /\ eind s' = eind s.
Proof. destruct s, pc3; repeat split. Qed.


Lemma write_down_app l1 : forall l2 st,
  write_down st (l1 ++ l2) = write_down (write_down st l1) l2.
Proof.
  induction l1 as [| b l1 IH]; intros l2 st.
  - reflexivity.
  - cbn [app write_down]. apply IH.
Qed.

Lemma same_above_spec n p m1 m2 :
  same_above n p m1 m2 = true ->
  forall k, (1 <= k <= n)%nat ->
  m1 (wrap16 (p + Z.of_nat k)) = m2 (wrap16 (p + Z.of_nat k)).
Proof.
  unfold same_above. intros H k Hk.
  rewrite forallb_forall in H. apply Z.eqb_eq. apply H.
  apply in_seq. lia.
Qed.

Lemma pops_addr_add p j k : pops_addr (pops_addr p j) k = pops_addr p (j + k).
Proof.
  unfold pops_addr. rewrite Nat.add_comm. symmetry. apply Nat.iter_add.
Qed.

Lemma low_byte_mod x : low_byte x = x mod 256.
Proof. unfold low_byte. change 0x00ff with (Z.ones 8). apply Z.land_ones. lia. Qed.

Lemma low_byte_lo8 x : low_byte (wrap16 x) = lo8 x.
Proof.
  rewrite low_byte_mod. unfold wrap16, lo8.
  apply Z.mod_mod_divide. exists 256. reflexivity.
Qed.

Lemma low_byte_hi8 x : low_byte (Z.shiftr (wrap16 x) 8) = hi8 x.
Proof.
  rewrite low_byte_mod, Z.shiftr_div_pow2 by lia.
  unfold wrap16, hi8. change 65536 with (256 * 256). change (2 ^ 8) with 256.
  rewrite Z.rem_mul_r by lia.
  rewrite Z.add_comm, Z.mul_comm, Z.div_add_l by lia.
  rewrite (Z.div_small (x mod 256)) by (apply Z.mod_pos_bound; lia).
  rewrite Z.add_0_r. apply Z.mod_mod. lia.
Qed.

Lemma address_from_bytes x :
  0 <= x < 65536 ->
  256 * low_byte (Z.shiftr (wrap16 x) 8) + low_byte (wrap16 x) = x.
Proof. intros H. rewrite low_byte_lo8, low_byte_hi8. apply lo8_hi8. exact H. Qed.

(** ret: the program counter it loads. *)
Lemma ret_pc pc3 s :
  pc (run pc3 [RET] s)
  = if pc3
    then 65536 * mem s (pops_addr (sp s) 1) + 256 * mem s (pops_addr (sp s) 2)
         + mem s (pops_addr (sp s) 3)
    else 256 * mem s (pops_addr (sp s) 1) + mem s (pops_addr (sp s) 2).
Proof. destruct s, pc3; reflexivity. Qed.

Lemma ret_keeps pc3 s :
  regs (run pc3 [RET] s) = regs s /\ sreg (run pc3 [RET] s) = sreg s.
Proof. destruct s, pc3; split; reflexivity. Qed.

Lemma builder_writes_frame pc3 top code param m :
  pxPortInitialiseStack pc3 top code param m
  = write_down (m, top) (frame_bytes pc3 code param).
Proof.
  unfold frame_bytes. rewrite write_down_app.
  rewrite builder_is_write_down. destruct pc3; reflexivity.
Qed.

Lemma frame_bytes_length pc3 code param :
  length (frame_bytes pc3 code param) = frame_size pc3.
Proof. destruct pc3; reflexivity. Qed.

Lemma builder_pointer pc3 top code param m :
  0 <= top < 65536 ->
  snd (pxPortInitialiseStack pc3 top code param m)
  = wrap16 (top - Z.of_nat (frame_size pc3)).
Proof.
  intros H. rewrite builder_writes_frame, write_down_ptr, frame_bytes_length by exact H.
  reflexivity.
Qed.

Lemma builder_byte pc3 top code param m k :
  0 <= top < 65536 ->
  (1 <= k <= frame_size pc3)%nat ->
  fst (pxPortInitialiseStack pc3 top code param m)
    (wrap16 (snd (pxPortInitialiseStack pc3 top code param m) + Z.of_nat k))
  = nth (frame_size pc3 - k) (frame_bytes pc3 code param) 0.
Proof.
  intros H Hk. rewrite builder_pointer by exact H.
  rewrite wrap16_add_l.
  replace (top - Z.of_nat (frame_size pc3) + Z.of_nat k)
    with (top - Z.of_nat (frame_size pc3 - k)) by lia.
  rewrite builder_writes_frame. apply write_down_get.
  - exact H.
  - rewrite frame_bytes_length. destruct pc3; cbn; lia.
  - rewrite frame_bytes_length. lia.
Qed.

(** Claim C1.  Round trip of the builder: for every entry point [pxCode]
    and parameter [pvParameters], if the control block pxCurrentTCB points
    to holds the pointer pxPortInitialiseStack returned and memory holds the
    bytes it stored above that pointer, then portRESTORE_CONTEXT() followed
    by [ret] leaves the program counter at [pxCode], r24 holding the low
    byte and r25 the high byte of the parameter, and the interrupt-enable
    bit of the status register set. *)
Theorem first_restore_enters_the_task
    (pxCurrentTCB : Z) (pc3 : bool) (pxTopOfStack pxCode pvParameters : Z)
    (m : memory) (s : state) :
  0 <= pxTopOfStack < 65536 ->
  0 <= pxCode < 65536 ->
  let built := pxPortInitialiseStack pc3 pxTopOfStack pxCode pvParameters m in
  tcb_sp pxCurrentTCB (mem s) = snd built ->
  same_above (Z.to_nat (context_size pc3 + pc_size pc3)) (snd built) (mem s) (fst built)
    = true ->
  let s' := run pc3 (portRESTORE_CONTEXT pxCurrentTCB pc3 ++ [RET]) s in
  pc s' = pxCode
  /\ regs s' 24%nat = lo8 pvParameters
  /\ regs s' 25%nat = hi8 pvParameters
  /\ interrupts_enabled s' = true.
Proof.
  intros Htop Hcode built Htcb Hsame s'.
  assert (Hp : 0 <= snd built < 65536).
  { unfold built. rewrite builder_pointer by exact Htop. apply wrap16_range. }
  assert (Hbyte : forall k, (1 <= k <= if pc3 then 38 else 35)%nat ->
            mem s (pops_addr (snd built) k)
            = nth (frame_size pc3 - k) (frame_bytes pc3 pxCode pvParameters) 0).
  { intros k Hk. rewrite pops_addr_eq by exact Hp.
    assert (Hsz : Z.to_nat (context_size pc3 + pc_size pc3)
                  = if pc3 then 38%nat else 35%nat) by (destruct pc3; reflexivity).
    rewrite (same_above_spec _ _ _ _ Hsame) by (rewrite Hsz; exact Hk).
    apply builder_byte; [exact Htop |].
    clear - Hk. unfold frame_size. destruct pc3; lia. }
  subst s'. rewrite run_app, (restore_split pxCurrentTCB pc3), run_app.
  set (s3 := run pc3 (restore_stack_pointer pxCurrentTCB pc3) s).
  assert (Hsp3 : sp s3 = snd built).
  { unfold s3. rewrite restore_stack_pointer_sp. exact Htcb. }
  assert (Hm3 : mem s3 = mem s) by apply restore_stack_pointer_mem.
  set (s4 := run pc3 (restore_pops pxCurrentTCB pc3) s3).
  destruct (restore_pops_mem_pc pxCurrentTCB pc3 s3) as [Hm4 _]. fold s4 in Hm4.
  assert (Hsp4 : sp s4 = pops_addr (snd built) (r0_pop pc3)).
  { unfold s4. rewrite restore_pops_sp, Hsp3. reflexivity. }
  destruct (ret_keeps pc3 s4) as [Rr Rs].
  unfold interrupts_enabled. rewrite ret_pc, Rr, Rs, Hsp4, Hm4, Hm3.
  rewrite !pops_addr_add.
  unfold s4. rewrite !restore_pops_regs, restore_pops_sreg, Hsp3, Hm3 by lia.
  destruct pc3; cbn [r0_pop sreg_pop Nat.add Nat.sub];
    rewrite !Hbyte by lia;
    cbn [frame_size Nat.sub frame_bytes return_address_bytes saved_context app nth
         map seq first_run_state regs sreg rampz eind initial_registers];
    rewrite ?Z.mul_0_r, ?Z.add_0_l, address_from_bytes, low_byte_lo8, low_byte_hi8
      by exact Hcode;
    repeat split; reflexivity.
Qed.

(** Claim C2.  For either width of the program counter, the bytes the
    builder stores below the return address are, byte for byte and at the
    same addresses, the bytes portSAVE_CONTEXT() pushes when a task whose
    registers hold the builder's values is saved at that point: the two
    memories are equal and so are the resulting stack pointers.  The
    sequence is r0, the status register, the two extended bytes when the
    program counter has 3 bytes, then r1, r2, ..., r31; its length is the
    number of push instructions of the macro (33, or 35). *)
Theorem builder_context_is_what_save_pushes
    (pxCurrentTCB : Z) (pc3 : bool) (pxTopOfStack pxCode pvParameters : Z) (m : memory) :
  let st := put_return_address pc3 pxCode (m, pxTopOfStack) in
  let s0 := first_run_state pvParameters (fst st) (snd st) in
  let s1 := run pc3 (save_pushes pxCurrentTCB pc3) s0 in
  let built := pxPortInitialiseStack pc3 pxTopOfStack pxCode pvParameters m in
  built = write_down st (saved_context pc3 s0)
  /\ mem s1 = fst built
  /\ sp s1 = snd built
  /\ Z.of_nat (length (saved_context pc3 s0)) = context_size pc3
  /\ Z.of_nat (length (filter is_push (portSAVE_CONTEXT pxCurrentTCB pc3)))
     = context_size pc3.
Proof.
  intros st s0 s1 built.
  assert (E : built = write_down st (saved_context pc3 s0)).
  { unfold built, put_context, pxPortInitialiseStack. fold st.
    destruct st as [m0 p0]. destruct pc3; reflexivity. }
  split; [exact E |].
  split; [| split; [| split]].
  - unfold s1. rewrite save_pushes_mem, E. destruct st; reflexivity.
  - unfold s1. rewrite save_pushes_sp, E. destruct st; reflexivity.
  - apply saved_context_length.
  - destruct pc3; reflexivity.
Qed.

Lemma I_bit_cleared x : Z.testbit (Z.clearbit x I_BIT) I_BIT = false.
Proof. apply Z.clearbit_eq. Qed.

Lemma clr_flags_I_bit x : Z.testbit (clr_flags x) I_BIT = Z.testbit x I_BIT.
Proof.
  unfold clr_flags, I_BIT.
  rewrite Z.setbit_neq by lia. rewrite !Z.clearbit_neq by lia. reflexivity.
Qed.

Lemma save_prefix_interrupts_off pxCurrentTCB pc3 s k :
  (3 <= k)%nat ->
  interrupts_enabled (run pc3 (firstn k (portSAVE_CONTEXT pxCurrentTCB pc3)) s) = false.
Proof.
  intros H. do 3 (destruct k as [| k]; [lia |]). clear H.
  destruct s as [rg sr p c rz ei m].
  do 44 (destruct k as [| k];
         [destruct pc3; symex_sreg; rewrite ?clr_flags_I_bit; apply I_bit_cleared |]).
  destruct pc3; symex_sreg; rewrite ?clr_flags_I_bit; apply I_bit_cleared.
Qed.

Lemma saved_flags_byte pxCurrentTCB pc3 s :
  mem (run pc3 (save_pushes pxCurrentTCB pc3) s) (wrap16 (sp s - 1)) = sreg s.
Proof.
  rewrite save_pushes_mem.
  change (saved_context pc3 s)
    with (regs s 0%nat :: sreg s
          :: ((if pc3 then [rampz s; eind s] else []) ++ map (regs s) (seq 1 31))).
  cbn [write_down].
  change (put (sreg s) (put (regs s 0%nat) (mem s, sp s)))
    with (upd (upd (mem s) (sp s) (regs s 0%nat)) (wrap16 (sp s - 1)) (sreg s),
          wrap16 (wrap16 (sp s - 1) - 1)).
  rewrite write_down_other.
  - apply upd_same.
  - apply wrap16_range.
  - intros i Hi E. rewrite wrap16_sub_l in E.
    replace (wrap16 (sp s - 1) - 1 - Z.of_nat i)
      with (wrap16 (sp s - 1) - (1 + Z.of_nat i)) in E by lia.
    rewrite wrap16_sub_l in E.
    replace (sp s - 1 - (1 + Z.of_nat i)) with (sp s - (2 + Z.of_nat i)) in E by lia.
    apply wrap16_down_inj in E; [lia | lia |].
    assert (Z.of_nat (length ((if pc3 then [rampz s; eind s] else [])
                              ++ map (regs s) (seq 1 31))) <= 33)
      by (destruct pc3; cbn; lia).
    lia.
Qed.

(** Claim C3.  In portSAVE_CONTEXT() the second instruction reads the
    status register into __tmp_reg__ and the third is [cli]; the value read
    is the status register as it was on entry, interrupt-enable bit
    included; after the third instruction, and before every push of a
    register r2 .. r31, interrupts are disabled; the flags byte left on the
    stack is the status register the task had on entry. *)
Theorem save_captures_flags_then_disables_interrupts
    (pxCurrentTCB : Z) (pc3 : bool) (s : state) (k r : nat) :
  nth_error (portSAVE_CONTEXT pxCurrentTCB pc3) k = Some (PUSH r) ->
  (2 <= r)%nat ->
  let prog := portSAVE_CONTEXT pxCurrentTCB pc3 in
  nth_error prog 1 = Some (IN tmp_reg IO_SREG)
  /\ nth_error prog 2 = Some CLI
  /\ regs (run pc3 (firstn 2 prog) s) tmp_reg = sreg s
  /\ interrupts_enabled (run pc3 (firstn 2 prog) s) = interrupts_enabled s
  /\ interrupts_enabled (run pc3 (firstn 3 prog) s) = false
  /\ interrupts_enabled (run pc3 (firstn k prog) s) = false
  /\ mem (run pc3 (save_pushes pxCurrentTCB pc3) s) (wrap16 (sp s - 1)) = sreg s.
Proof.
  intros Hk Hr prog.
  assert (K : (3 <= k)%nat).
  { destruct k as [| [| [| k]]]; [| | | lia]; destruct pc3; cbn in Hk.
    all: try discriminate. all: injection Hk as <-; unfold tmp_reg in Hr; lia. }
  split; [destruct pc3; reflexivity |].
  split; [destruct pc3; reflexivity |].
  split; [destruct s, pc3; reflexivity |].
  split; [destruct s, pc3; reflexivity |].
  split; [apply save_prefix_interrupts_off; lia |].
  split; [apply save_prefix_interrupts_off; exact K |].
  apply saved_flags_byte.
Qed.

Lemma write_down_ptr_range bs m a :
  bs <> [] -> 0 <= snd (write_down (m, a) bs) < 65536.
Proof.
  destruct bs as [| b bs]; [congruence | intros _].
  cbn [write_down].
  change (put b (m, a)) with (upd m a b, wrap16 (a - 1)).
  rewrite write_down_ptr by apply wrap16_range. apply wrap16_range.
Qed.

Lemma save_pushes_sp_range pxCurrentTCB pc3 s :
  0 <= sp (run pc3 (save_pushes pxCurrentTCB pc3) s) < 65536.
Proof.
  rewrite save_pushes_sp. apply write_down_ptr_range.
  unfold saved_context. discriminate.
Qed.

(** Claim C10.  portSAVE_CONTEXT() stores the stack pointer in the first
    two bytes of the control block pxCurrentTCB points to, low byte at
    offset 0 and high byte at offset 1, and changes no other byte with
    these two stores; portRESTORE_CONTEXT() loads the stack pointer from
    the same two bytes in the same order; so, pxCurrentTCB still pointing
    to that control block, the restore starts from the stack pointer the
    save left. *)
Theorem stack_pointer_field_is_shared_by_save_and_restore
    (pxCurrentTCB : Z) (pc3 : bool) (s s' : state) :
  let s1 := run pc3 (save_pushes pxCurrentTCB pc3) s in
  let s2 := run pc3 (portSAVE_CONTEXT pxCurrentTCB pc3) s in
  let tcb := current_tcb pxCurrentTCB (mem s1) in
  let tcb' := current_tcb pxCurrentTCB (mem s') in
  sp s2 = sp s1
  /\ mem s2 tcb = lo8 (sp s2)
  /\ mem s2 (wrap16 (tcb + 1)) = hi8 (sp s2)
  /\ (forall a, a <> tcb -> a <> wrap16 (tcb + 1) -> mem s2 a = mem s1 a)
  /\ sp (run pc3 (restore_stack_pointer pxCurrentTCB pc3) s')
     = 256 * lo8 (mem s' (wrap16 (tcb' + 1))) + lo8 (mem s' tcb')
  /\ (current_tcb pxCurrentTCB (mem s2) = tcb ->
      sp (run pc3 (restore_stack_pointer pxCurrentTCB pc3) s2) = sp s2).
Proof.
  intros s1 s2 tcb tcb'.
  assert (E2 : s2 = run pc3 (save_stack_pointer pxCurrentTCB pc3) s1).
  { unfold s2, s1. rewrite (save_split pxCurrentTCB pc3) at 1. apply run_app. }
  assert (Hsp : sp s2 = sp s1) by (rewrite E2; apply save_stack_pointer_sp).
  assert (Hm : mem s2 = upd (upd (mem s1) tcb (lo8 (sp s1))) (wrap16 (tcb + 1)) (hi8 (sp s1))).
  { rewrite E2. apply save_stack_pointer_mem. }
  assert (Hne : tcb <> wrap16 (tcb + 1)).
  { intros E. apply (wrap16_succ_neq tcb); [apply current_tcb_range | congruence]. }
  assert (Hlo : mem s2 tcb = lo8 (sp s2)).
  { rewrite Hm, Hsp, upd_other by exact Hne. apply upd_same. }
  assert (Hhi : mem s2 (wrap16 (tcb + 1)) = hi8 (sp s2)).
  { rewrite Hm, Hsp. apply upd_same. }
  split; [exact Hsp |]. split; [exact Hlo |]. split; [exact Hhi |].
  split; [| split].
  - intros a Ha Hb. rewrite Hm, !upd_other by assumption. reflexivity.
  - apply restore_stack_pointer_sp.
  - intros Hsame. rewrite restore_stack_pointer_sp. unfold tcb_sp. cbv zeta.
    rewrite Hsame, Hlo, Hhi, lo8_hi8_id, lo8_lo8.
    apply lo8_hi8. rewrite Hsp. apply save_pushes_sp_range.
Qed.



(** Claim C3 at [example_state], for the push of r2 (instruction 6). *)
Lemma save_captures_flags_example :
  interrupts_enabled
    (run false (firstn 6 (portSAVE_CONTEXT 0x0100 false)) example_state) = false
  /\ mem (run false (save_pushes 0x0100 false) example_state) 0x08FE = 0x83.
Proof.
  destruct (save_captures_flags_then_disables_interrupts 0x0100 false example_state 6 2)
    as [_ [_ [_ [_ [_ [A B]]]]]].
  - reflexivity.
  - lia.
  - split; [exact A | exact B].
Defined.

(** Claim C10 at [example_state]. *)
Lemma stack_pointer_field_example :
  sp (run false (restore_stack_pointer 0x0100 false)
        (run false (portSAVE_CONTEXT 0x0100 false) example_state))
  = 0x08FF - 33.
Proof.
  destruct (stack_pointer_field_is_shared_by_save_and_restore
              0x0100 false example_state example_state)
    as [_ [_ [_ [_ [_ A]]]]].
  rewrite A.
  - vm_compute. reflexivity.
  - vm_compute. reflexivity.
Defined.

(** Claim C1 at [example_first_state]. *)
Lemma first_restore_enters_the_task_example :
  let s' := run false (portRESTORE_CONTEXT 0x0100 false ++ [RET]) example_first_state in
  pc s' = 0x1234 /\ regs s' 24%nat = 0xEF /\ regs s' 25%nat = 0xBE
  /\ interrupts_enabled s' = true.
Proof.
  destruct (first_restore_enters_the_task 0x0100 false 0x08FF 0x1234 0xBEEF
              (fun _ => 0) example_first_state) as [A [B [C D]]].
  - lia.
  - lia.
  - vm_compute. reflexivity.
  - vm_compute. reflexivity.
  - split; [exact A | split; [exact B | split; [exact C | exact D]]].
Defined.

(* ================================================================= *)
(** ** The tick source *)

Lemma uint32_small x : 0 <= x < 2 ^ 32 -> uint32 x = x.
Proof. unfold uint32. intros. apply Z.mod_small. assumption. Qed.

Lemma low8_small x : 0 <= x < 256 -> uint8 (Z.land x 0xff) = x.
Proof.
  intros H. change 0xff with (Z.ones 8). rewrite Z.land_ones by lia.
  unfold uint8. rewrite Z.mod_mod by lia. apply Z.mod_small. lia.
Qed.

Lemma low8_range x : 0 <= uint8 (Z.land x 0xff) <= 255.
Proof.
  unfold uint8. pose proof (Z.mod_pos_bound (Z.land x 0xff) (2 ^ 8)). lia.
Qed.

Section Timer0Facts.
Import Timer0.
Variables WGM01 CS02 CS00 OCIE0A : Z.
Variables clock rate bits : Z.

Let setup := prvSetupTimerInterrupt WGM01 CS02 CS00 OCIE0A clock rate bits.
Let n := clock / rate / 1024.

Lemma quotient_bounds :
  0 <= clock -> 0 < rate ->
  0 <= clock / rate <= clock /\ 0 <= n /\ 1024 * n <= clock / rate.
Proof.
  intros Hc Hr. unfold n.
  assert (H1 : 0 <= clock / rate) by (apply Z.div_pos; lia).
  assert (H2 : clock / rate <= clock).
  { apply Z.div_le_upper_bound; nia. }
  assert (H3 : 0 <= clock / rate / 1024) by (apply Z.div_pos; lia).
  pose proof (Z.mul_div_le (clock / rate) 1024). lia.
Qed.

Lemma setup_defined g0 h0 :
  0 <= clock < 2 ^ 32 -> 0 < rate -> 1 <= n ->
  setup (g0, h0)
  = Some (mkPortVars ((clock / (1024 * n)) mod 2 ^ bits)
                     ((clock / (1024 * n)) mod 2 ^ bits),
          mkHw (uint8 (Z.land (n - 1) 0xff))
               (portCLEAR_COUNTER_ON_MATCH WGM01)
               (portPRESCALE_1024 CS02 CS00)
               (uint8 (Z.lor (TIMSK0 h0) (portCOMPARE_MATCH_A_INTERRUPT_ENABLE OCIE0A)))).
Proof.
  intros Hc Hr Hn.
  destruct (quotient_bounds (proj1 Hc) Hr) as [Hq [Hn0 Hm]].
  unfold setup, prvSetupTimerInterrupt, portCLOCK_PRESCALER.
  assert (E : (rate =? 0) = false) by (apply Z.eqb_neq; lia). rewrite E.
  rewrite (uint32_small (clock / rate)) by lia.
  fold n.
  rewrite (uint32_small n) by lia.
  rewrite (uint32_small (1024 * n)) by lia.
  assert (E2 : (1024 * n =? 0) = false) by (apply Z.eqb_neq; lia). rewrite E2.
  rewrite (uint32_small clock) by lia.
  assert (HR : 0 <= clock / (1024 * n) <= clock).
  { split; [apply Z.div_pos; lia | apply Z.div_le_upper_bound; nia]. }
  rewrite (uint32_small (clock / (1024 * n))) by lia.
  rewrite (uint32_small (n - 1)) by lia.
  cbn [portTickRateHz ticksRemainingInSec OCR0A TCCR0A TCCR0B TIMSK0].
  reflexivity.
Qed.

Lemma reported_rate_bracket :
  0 <= clock -> 0 < rate -> 1 <= n ->
  rate <= clock / (1024 * n)
  /\ (clock / (1024 * n) - rate) * (1024 * n * (n + 1)) < clock.
Proof.
  intros Hc Hr Hn.
  destruct (quotient_bounds Hc Hr) as [Hq [_ Hm]].
  assert (A : rate * (1024 * n) <= clock).
  { pose proof (Z.mul_div_le clock rate Hr). nia. }
  assert (B : clock < rate * (1024 * (n + 1))).
  { assert (clock / rate < 1024 * (n + 1)).
    { unfold n. pose proof (Z.mul_succ_div_gt (clock / rate) 1024). lia. }
    pose proof (Z.mul_succ_div_gt clock rate Hr). nia. }
  assert (C : 1024 * n * (clock / (1024 * n)) <= clock).
  { apply Z.mul_div_le. lia. }
  split.
  - apply Z.div_le_lower_bound; lia.
  - nia.
Qed.

End Timer0Facts.

(** Claim C5, as amended.  When the quotient clock / rate / 1024 lies
    between 1 and 256 (and the rate fits TickType_t), the compare register
    receives the quotient less 1 and portTickRateHz is
    clock / (prescaler * (compare value + 1)) for the value written to the
    compare register. *)
Theorem timer0_reported_rate_from_compare_value
    (WGM01 CS02 CS00 OCIE0A clock rate bits : Z)
    (g0 : port_vars) (h0 : Timer0.hw) :
  0 <= clock < 2 ^ 32 ->
  0 < rate ->
  1 <= clock / rate / 1024 <= 256 ->
  clock / (1024 * (clock / rate / 1024)) < 2 ^ bits ->
  exists g h,
    Timer0.prvSetupTimerInterrupt WGM01 CS02 CS00 OCIE0A clock rate bits (g0, h0)
      = Some (g, h)
    /\ Timer0.OCR0A h = clock / rate / 1024 - 1
    /\ portTickRateHz g
       = clock / (Timer0.portCLOCK_PRESCALER * (Timer0.OCR0A h + 1)).
Proof.
  intros Hc Hr Hn Hfit.
  eexists. eexists. split.
  - apply setup_defined; lia.
  - cbn [Timer0.OCR0A portTickRateHz]. unfold Timer0.portCLOCK_PRESCALER.
    rewrite low8_small by lia.
    split; [reflexivity |].
    replace (clock / rate / 1024 - 1 + 1) with (clock / rate / 1024) by ring.
    apply Z.mod_small. split; [| exact Hfit].
    apply Z.div_pos; lia.
Qed.

(** The scenario of the specification: 16 MHz, 1000 Hz, prescaler 1024
    give the compare value 14 and the rate 1041. *)
Lemma timer0_reported_rate_scenario :
  exists g h,
    Timer0.prvSetupTimerInterrupt 1 2 0 1 16000000 1000 16
      (mkPortVars 0 0, Timer0.mkHw 0 0 0 0) = Some (g, h)
    /\ Timer0.OCR0A h = 14
    /\ portTickRateHz g = 1041.
Proof.
  destruct (timer0_reported_rate_from_compare_value 1 2 0 1 16000000 1000 16
              (mkPortVars 0 0) (Timer0.mkHw 0 0 0 0))
    as [g [h [E [Ho Hr]]]].
  - lia.
  - lia.
  - vm_compute. split; discriminate.
  - vm_compute. reflexivity.
  - exists g, h. split; [exact E |]. rewrite Hr, Ho. split; reflexivity.
Defined.

(** Claim C5 as stated fails for 16 MHz and 50 Hz: the quotient is 312,
    the compare register receives 311 truncated to 8 bits, 55, and the
    reported rate is 50, not 16000000 / (1024 * 56) = 279. *)
Lemma timer0_truncated_compare_value :
  exists g h,
    Timer0.prvSetupTimerInterrupt 1 2 0 1 16000000 50 16
      (mkPortVars 0 0, Timer0.mkHw 0 0 0 0) = Some (g, h)
    /\ Timer0.OCR0A h = 55
    /\ portTickRateHz g = 50
    /\ portTickRateHz g
       <> 16000000 / (Timer0.portCLOCK_PRESCALER * (Timer0.OCR0A h + 1)).
Proof.
  eexists. eexists. split; [vm_compute; reflexivity |].
  cbn [Timer0.OCR0A portTickRateHz]. repeat split. vm_compute. discriminate.
Qed.

(** Claim C7, as amended.  For a configuration whose quotient
    n = clock / rate / 1024 lies between 1 and 256 (and whose rate fits
    TickType_t), the set-up is defined, the value written to the compare
    register is n - 1, which fits its 8 bits without truncation, and the
    reported rate R is the rate of that value, clock / (1024 * (value + 1)),
    with rate <= R and (R - rate) * 1024 * n * (n + 1) < clock: R is less
    than one step of the compare register,
    clock / (1024 n) - clock / (1024 (n + 1)), above the requested rate. *)
Theorem timer0_compare_value_and_rate_bounds
    (WGM01 CS02 CS00 OCIE0A clock rate bits : Z)
    (g0 : port_vars) (h0 : Timer0.hw) :
  0 <= clock < 2 ^ 32 ->
  0 < rate ->
  1 <= clock / rate / 1024 <= 256 ->
  clock / (1024 * (clock / rate / 1024)) < 2 ^ bits ->
  exists g h,
    Timer0.prvSetupTimerInterrupt WGM01 CS02 CS00 OCIE0A clock rate bits (g0, h0)
      = Some (g, h)
    /\ Timer0.OCR0A h = clock / rate / 1024 - 1
    /\ 0 <= Timer0.OCR0A h <= 255
    /\ portTickRateHz g = clock / (1024 * (Timer0.OCR0A h + 1))
    /\ rate <= portTickRateHz g
    /\ (portTickRateHz g - rate)
       * (1024 * (clock / rate / 1024) * (clock / rate / 1024 + 1)) < clock.
Proof.
  intros Hc Hr Hn Hfit.
  destruct (reported_rate_bracket clock rate (proj1 Hc) Hr (proj1 Hn)) as [Hlo Hhi].
  eexists. eexists. split.
  - apply setup_defined; lia.
  - cbn [Timer0.OCR0A portTickRateHz].
    rewrite Z.mod_small by lia.
    rewrite low8_small by lia.
    split; [reflexivity |]. split; [lia |].
    split; [| split; assumption].
    replace (clock / rate / 1024 - 1 + 1) with (clock / rate / 1024) by ring.
    reflexivity.
Qed.

(** The scenario of the specification, for the bounds. *)
Lemma timer0_compare_value_and_rate_bounds_scenario :
  exists g h,
    Timer0.prvSetupTimerInterrupt 1 2 0 1 16000000 1000 16
      (mkPortVars 0 0, Timer0.mkHw 0 0 0 0) = Some (g, h)
    /\ Timer0.OCR0A h = 14
    /\ 1000 <= portTickRateHz g
    /\ (portTickRateHz g - 1000) * (1024 * 15 * 16) < 16000000.
Proof.
  destruct (timer0_compare_value_and_rate_bounds 1 2 0 1 16000000 1000 16
              (mkPortVars 0 0) (Timer0.mkHw 0 0 0 0))
    as [g [h [E [Ho [_ [_ [Hl Hh]]]]]]].
  - lia.
  - lia.
  - vm_compute. split; discriminate.
  - vm_compute. reflexivity.
  - exists g, h. split; [exact E |]. split; [exact Ho |]. split; [exact Hl | exact Hh].
Defined.

(** Claim C7 as stated, for every configuration, fails on both sides of
    that range.  For 1 MHz and 1000 Hz the quotient is 0 and the rate
    computation divides by it.  For 16 MHz and 60 Hz the quotient is 260:
    the compare register receives 259 truncated to 8 bits, 3, whose rate
    is 16000000 / (1024 * 4) = 3906, while the rate reported is 60. *)
Lemma timer0_quotient_outside_1_to_256 :
  Timer0.prvSetupTimerInterrupt 1 2 0 1 1000000 1000 16
    (mkPortVars 0 0, Timer0.mkHw 0 0 0 0) = None
  /\ exists g h,
       Timer0.prvSetupTimerInterrupt 1 2 0 1 16000000 60 16
         (mkPortVars 0 0, Timer0.mkHw 0 0 0 0) = Some (g, h)
       /\ Timer0.OCR0A h = 3
       /\ portTickRateHz g = 60
       /\ 16000000 / (1024 * (Timer0.OCR0A h + 1)) = 3906.
Proof.
  split; [vm_compute; reflexivity |].
  eexists. eexists. split; [vm_compute; reflexivity |].
  cbn [Timer0.OCR0A portTickRateHz]. split; [reflexivity |].
  split; reflexivity.
Qed.

Lemma BV_bit b : 0 <= b -> Z.testbit (_BV b) b = true.
Proof. intros H. unfold _BV. rewrite Z.shiftl_1_l. apply Z.pow2_bits_true. exact H. Qed.

Lemma BV_other_bit b n : 0 <= b -> n <> b -> Z.testbit (_BV b) n = false.
Proof.
  intros H Hn. unfold _BV. rewrite Z.shiftl_1_l. apply Z.pow2_bits_false. congruence.
Qed.

Lemma low3_high_bit v n : 3 <= n -> Z.testbit (Z.land v 0x07) n = false.
Proof.
  intros H. rewrite Z.land_spec. change 0x07 with (Z.ones 3).
  rewrite Z.ones_spec_high by lia. apply andb_false_r.
Qed.

Lemma uint8_bit x n : Z.testbit (uint8 x) n = (n <? 8) && Z.testbit x n.
Proof.
  unfold uint8. destruct (Z.ltb_spec n 8) as [H | H].
  - rewrite Z.mod_pow2_bits_low by lia. reflexivity.
  - rewrite Z.mod_pow2_bits_high by lia. reflexivity.
Qed.

Section WatchdogFacts.
Import WDT.
Variables WD_CHANGE_BIT WDE WDIF WDIE WD_PS3_MASK : Z.
Variable is_io : bool.

Hypothesis WDIE_in_byte : 0 <= WDIE < 8.
Hypothesis WDIF_bit : 0 <= WDIF.
Hypothesis WDE_above_prescale : 3 <= WDE.
Hypothesis WDE_not_WDIE : WDE <> WDIE.
Hypothesis WDE_not_WDIF : WDE <> WDIF.
Hypothesis WDE_not_in_PS3 : Z.testbit WD_PS3_MASK WDE = false.

Lemma wdt_interrupt_enable_control value h :
  WD_CONTROL_REG (wdt_interrupt_enable WD_CHANGE_BIT WDE WDIF WDIE WD_PS3_MASK is_io value h)
  = uint8 (Z.lor (Z.lor (Z.lor (if Z.land (uint8 value) 0x08 =? 0 then 0x00 else WD_PS3_MASK)
                               (_BV WDIF))
                        (_BV WDIE))
                 (Z.land (uint8 value) 0x07)).
Proof. unfold wdt_interrupt_enable. destruct is_io; reflexivity. Qed.

Lemma control_WDIE_set value h :
  Z.testbit (WD_CONTROL_REG
    (wdt_interrupt_enable WD_CHANGE_BIT WDE WDIF WDIE WD_PS3_MASK is_io value h)) WDIE = true.
Proof.
  rewrite wdt_interrupt_enable_control, uint8_bit.
  rewrite !Z.lor_spec, BV_bit by lia.
  assert (E : (WDIE <? 8) = true) by (apply Z.ltb_lt; lia).
  rewrite E, orb_true_r. reflexivity.
Qed.

Lemma control_WDE_clear value h :
  Z.testbit (WD_CONTROL_REG
    (wdt_interrupt_enable WD_CHANGE_BIT WDE WDIF WDIE WD_PS3_MASK is_io value h)) WDE = false.
Proof.
  rewrite wdt_interrupt_enable_control, uint8_bit.
  rewrite !Z.lor_spec, low3_high_bit by lia.
  rewrite (BV_other_bit WDIF), (BV_other_bit WDIE) by lia.
  replace (Z.testbit (if Z.land (uint8 value) 8 =? 0 then 0 else WD_PS3_MASK) WDE)
    with false.
  - apply andb_false_r.
  - destruct (Z.land (uint8 value) 8 =? 0); [rewrite Z.testbit_0_l; reflexivity | congruence].
Qed.

End WatchdogFacts.

(** Claim C8.  Whatever prescale value it is given, wdt_interrupt_enable
    leaves the watchdog control register with WDIE set and WDE clear, and so
    does prvSetupTimerInterrupt(), which calls it with portUSE_WDTO.  The
    bit numbers come from the device headers: WDIE is a bit of the byte,
    WDE is not one of the three low prescale bits, not WDIE, not WDIF and
    not in _WD_PS3_MASK. *)
Theorem watchdog_tick_uses_interrupt_not_reset
    (WD_CHANGE_BIT WDE WDIF WDIE WD_PS3_MASK : Z) (is_io : bool)
    (configTICK_RATE_HZ portUSE_WDTO TickType_bits value : Z)
    (g : port_vars) (h : WDT.hw) :
  0 <= WDIE < 8 ->
  0 <= WDIF ->
  3 <= WDE ->
  WDE <> WDIE ->
  WDE <> WDIF ->
  Z.testbit WD_PS3_MASK WDE = false ->
  let h1 := WDT.wdt_interrupt_enable WD_CHANGE_BIT WDE WDIF WDIE WD_PS3_MASK is_io value h in
  let h2 := snd (WDT.prvSetupTimerInterrupt WD_CHANGE_BIT WDE WDIF WDIE WD_PS3_MASK is_io
                   configTICK_RATE_HZ portUSE_WDTO TickType_bits (g, h)) in
  Z.testbit (WDT.WD_CONTROL_REG h1) WDIE = true
  /\ Z.testbit (WDT.WD_CONTROL_REG h1) WDE = false
  /\ Z.testbit (WDT.WD_CONTROL_REG h2) WDIE = true
  /\ Z.testbit (WDT.WD_CONTROL_REG h2) WDE = false.
Proof.
  intros H1 H2 H3 H4 H5 H6 h1 h2. subst h1 h2.
  unfold WDT.prvSetupTimerInterrupt. cbn [snd].
  repeat split;
    first [ apply control_WDIE_set; assumption | apply control_WDE_clear; assumption ].
Qed.

(** The ATmega328P: WDIF 7, WDIE 6, WDP3 5, WDCE 4, WDE 3; WDTO_2S is 7. *)
Lemma watchdog_tick_atmega328p :
  let h := snd (WDT.prvSetupTimerInterrupt 4 3 7 6 0x20 false 62 7 16
                  (mkPortVars 0 0, WDT.mkHw 0 0x80 0 0)) in
  Z.testbit (WDT.WD_CONTROL_REG h) 6 = true
  /\ Z.testbit (WDT.WD_CONTROL_REG h) 3 = false.
Proof.
  destruct (watchdog_tick_uses_interrupt_not_reset 4 3 7 6 0x20 false 62 7 16 7
              (mkPortVars 0 0) (WDT.mkHw 0 0x80 0 0)) as [_ [_ [A B]]];
    try lia; try reflexivity.
  split; assumption.
Defined.

Section EntryFacts.
Import Entry.
Variable K : Type.
Variable xTaskIncrementTick : K -> Z * K.
Variable vTaskSwitchContext : K -> K.

Lemma vPortYieldFromTick_log (w : world K) :
  log (vPortYieldFromTick xTaskIncrementTick vTaskSwitchContext w)
  = log w ++ [A_portSAVE_CONTEXT; A_xTaskIncrementTick]
      ++ (if fst (xTaskIncrementTick (core w)) =? pdFALSE
          then [] else [A_vTaskSwitchContext])
      ++ [A_portRESTORE_CONTEXT; A_ret].
Proof.
  unfold vPortYieldFromTick, call_xTaskIncrementTick, call_vTaskSwitchContext, note.
  cbn [core vars log].
  destruct (xTaskIncrementTick (core w)) as [r k]. cbn [fst core vars log].
  destruct (r =? pdFALSE); cbn [negb core vars log];
    repeat rewrite <- app_assoc; reflexivity.
Qed.

Lemma times_app a (w : world K) l :
  length (filter (action_eqb a) (log w ++ l))
  = (times a w + length (filter (action_eqb a) l))%nat.
Proof. unfold times. rewrite filter_app, length_app. reflexivity. Qed.

End EntryFacts.

(** Claim C6.  With configUSE_PREEMPTION other than 1 the tick interrupt
    calls xTaskIncrementTick and nothing else, so vTaskSwitchContext is not
    called whatever xTaskIncrementTick returns; with configUSE_PREEMPTION
    equal to 1 it runs vPortYieldFromTick, which calls vTaskSwitchContext
    once when xTaskIncrementTick returns a value other than pdFALSE and not
    at all when it returns pdFALSE. *)
Theorem tick_entry_preemption_gating
    (K : Type) (xTaskIncrementTick : K -> Z * K) (vTaskSwitchContext : K -> K)
    (configUSE_PREEMPTION : Z) (w : Entry.world K) :
  let ISR := Entry.portSCHEDULER_ISR xTaskIncrementTick vTaskSwitchContext in
  let fromTick := Entry.vPortYieldFromTick xTaskIncrementTick vTaskSwitchContext in
  let reschedule := negb (fst (xTaskIncrementTick (Entry.core w)) =? Entry.pdFALSE) in
  let switches := Entry.times Entry.A_vTaskSwitchContext in
  Entry.log (ISR configUSE_PREEMPTION w)
    = (if configUSE_PREEMPTION =? 1
       then Entry.log (fromTick w) ++ [Entry.A_reti]
       else Entry.log w ++ [Entry.A_xTaskIncrementTick])
  /\ switches (ISR configUSE_PREEMPTION w)
     = ((if (configUSE_PREEMPTION =? 1)%Z && reschedule then 1 else 0) + switches w)%nat
  /\ switches (fromTick w)
     = ((if reschedule then 1 else 0) + switches w)%nat.
Proof.
  intros ISR fromTick reschedule switches.
  assert (L : Entry.log (ISR configUSE_PREEMPTION w)
    = (if configUSE_PREEMPTION =? 1
       then Entry.log (fromTick w) ++ [Entry.A_reti]
       else Entry.log w ++ [Entry.A_xTaskIncrementTick])).
  { subst ISR fromTick. unfold Entry.portSCHEDULER_ISR.
    destruct (configUSE_PREEMPTION =? 1).
    - reflexivity.
    - unfold Entry.call_xTaskIncrementTick, Entry.note.
      destruct (xTaskIncrementTick (Entry.core w)). reflexivity. }
  assert (F : switches (fromTick w)
     = ((if reschedule then 1 else 0) + switches w)%nat).
  { subst switches fromTick reschedule. unfold Entry.times at 1.
    rewrite vPortYieldFromTick_log, times_app.
    destruct (fst (xTaskIncrementTick (Entry.core w)) =? Entry.pdFALSE);
      cbn [negb app filter Entry.action_eqb length]; lia. }
  split; [exact L |]. split; [| exact F].
  subst switches. unfold Entry.times at 1. rewrite L.
  destruct (configUSE_PREEMPTION =? 1); cbn [andb].
  - rewrite filter_app, length_app. cbn [filter Entry.action_eqb length].
    fold (Entry.times Entry.A_vTaskSwitchContext (fromTick w)).
    rewrite F. lia.
  - rewrite times_app. cbn [filter Entry.action_eqb length]. lia.
Qed.

(* ================================================================= *)
(** ** ticksRemainingInSec across tick interrupts *)

(** What both calls of the scheduler core keep, any number of tick
    interrupts keeps. *)
Lemma ticks_keep (K : Type)
    (xTaskIncrementTick : K * port_vars -> Z * (K * port_vars))
    (vTaskSwitchContext : K * port_vars -> K * port_vars)
    (P : K * port_vars -> Prop) :
  (forall st, P st -> P (snd (xTaskIncrementTick st))) ->
  (forall st, P st -> P (vTaskSwitchContext st)) ->
  forall c n st, P st ->
  P (Globals.ticks xTaskIncrementTick vTaskSwitchContext c n st).
Proof.
  intros Hinc Hsw c n. induction n as [| n IH]; intros st Hst.
  - exact Hst.
  - cbn [Globals.ticks]. apply IH.
    unfold Globals.portSCHEDULER_ISR, Globals.vPortYieldFromTick.
    specialize (Hinc st Hst).
    destruct (xTaskIncrementTick st) as [r st']. cbn [snd] in Hinc.
    destruct (c =? 1); [| exact Hinc].
    destruct (negb (r =? Entry.pdFALSE)); [apply Hsw |]; exact Hinc.
Qed.



(** Claim C9 as stated fails on port.c: after the set-up for 16 MHz and
    1000 Hz the counter is 1041, and with a core that leaves the variables
    of port.c alone a tick interrupt, of either kind, leaves it at 1041;
    nothing in port.c decrements it.  It is decremented, and set back at
    zero, only when the code called from the tick does so, as
    [core_tick_counting] does. *)
Lemma ticksRemainingInSec_not_decremented_by_the_port :
  match Timer0.prvSetupTimerInterrupt 1 2 0 1 16000000 1000 16
          (mkPortVars 0 0, Timer0.mkHw 0 0 0 0) with
  | Some (g, _) =>
      ticksRemainingInSec g = 1041
      /\ ticksRemainingInSec
           (snd (Globals.portSCHEDULER_ISR core_tick_plain (fun st => st) 1 (tt, g)))
         = 1041
      /\ ticksRemainingInSec
           (snd (Globals.portSCHEDULER_ISR core_tick_plain (fun st => st) 0 (tt, g)))
         = 1041
      /\ ticksRemainingInSec
           (snd (Globals.portSCHEDULER_ISR core_tick_counting (fun st => st) 1 (tt, g)))
         = 1040
      /\ ticksRemainingInSec
           (snd (Globals.ticks core_tick_counting (fun st => st) 1 1041 (tt, g)))
         = 1041
  | None => False
  end.
Proof. vm_compute. repeat split. Qed.

(* ================================================================= *)
(** * Further properties of port.c *)

(* ================================================================= *)
(** ** Resuming a saved task *)

Lemma context_size_nat pc3 :
  Z.to_nat (context_size pc3) = if pc3 then 35%nat else 33%nat.
Proof. destruct pc3; reflexivity. Qed.

Lemma ret_sp pc3 s :
  sp (run pc3 [RET] s) = pops_addr (sp s) (Z.to_nat (pc_size pc3)).
Proof. destruct s, pc3; reflexivity. Qed.

Lemma ret_extended pc3 s :
  rampz (run pc3 [RET] s) = rampz s /\ eind (run pc3 [RET] s) = eind s.
Proof. destruct s, pc3; split; reflexivity. Qed.

Lemma restore_pops_extended_if pxCurrentTCB pc3 s :
  rampz (run pc3 (restore_pops pxCurrentTCB pc3) s)
    = (if pc3 then mem s (pops_addr (sp s) 33) else rampz s)
  /\ eind (run pc3 (restore_pops pxCurrentTCB pc3) s)
    = (if pc3 then mem s (pops_addr (sp s) 32) else eind s).
Proof. destruct s, pc3; split; reflexivity. Qed.

Section Resume.
Variable pxCurrentTCB : Z.
Variable pc3 : bool.
(** [b] is the task as it was when its context was saved. *)
Variable b : state.
Hypothesis sp_range : 0 <= sp b < 65536.

Let n := Z.to_nat (context_size pc3).
Let b1 := run pc3 (save_pushes pxCurrentTCB pc3) b.

Lemma pushed_sp : sp b1 = wrap16 (sp b - Z.of_nat n).
Proof. apply s1_sp. exact sp_range. Qed.

Lemma pushed_byte_above k :
  (1 <= k <= n)%nat ->
  mem b1 (wrap16 (sp b1 + Z.of_nat k)) = nth (n - k) (saved_context pc3 b) 0.
Proof.
  intros Hk.
  assert (Hn : n = if pc3 then 35%nat else 33%nat) by apply context_size_nat.
  assert (Hlen : length (saved_context pc3 b) = n).
  { rewrite Hn. destruct pc3; reflexivity. }
  rewrite pushed_sp, wrap16_add_l.
  replace (sp b - Z.of_nat n + Z.of_nat k) with (sp b - Z.of_nat (n - k)) by lia.
  unfold b1. rewrite save_pushes_mem. apply write_down_get.
  - exact sp_range.
  - rewrite Hlen, Hn. destruct pc3; lia.
  - rewrite Hlen. lia.
Qed.

Lemma return_address_above j :
  (1 <= j <= 3)%nat ->
  mem b1 (wrap16 (sp b1 + Z.of_nat (n + j))) = mem b (wrap16 (sp b + Z.of_nat j)).
Proof.
  intros Hj.
  assert (Hn : n = if pc3 then 35%nat else 33%nat) by apply context_size_nat.
  assert (Hlen : length (saved_context pc3 b) = n).
  { rewrite Hn. destruct pc3; reflexivity. }
  rewrite pushed_sp, wrap16_add_l.
  replace (sp b - Z.of_nat n + Z.of_nat (n + j)) with (sp b + Z.of_nat j) by lia.
  unfold b1. rewrite save_pushes_mem. apply write_down_other.
  - exact sp_range.
  - rewrite Hlen. intros i Hi E.
    replace (sp b + Z.of_nat j) with (sp b + 3 - (3 - Z.of_nat j)) in E by lia.
    replace (sp b - Z.of_nat i) with (sp b + 3 - (3 + Z.of_nat i)) in E by lia.
    apply wrap16_down_inj in E; [lia | lia |].
    rewrite Hn in Hi. destruct pc3; lia.
Qed.

(** [t] is the processor when the restore begins. *)
Variable t : state.
Hypothesis tcb_holds_sp : tcb_sp pxCurrentTCB (mem t) = sp b1.
Hypothesis context_intact :
  forall k, (1 <= k <= n)%nat ->
  mem t (wrap16 (sp b1 + Z.of_nat k)) = mem b1 (wrap16 (sp b1 + Z.of_nat k)).

Let t' := run pc3 (portRESTORE_CONTEXT pxCurrentTCB pc3) t.

Lemma restored_byte k :
  (1 <= k <= n)%nat ->
  mem t (pops_addr (sp b1) k) = nth (n - k) (saved_context pc3 b) 0.
Proof.
  intros Hk. rewrite pops_addr_eq by (rewrite pushed_sp; apply wrap16_range).
  rewrite context_intact by exact Hk. apply pushed_byte_above. exact Hk.
Qed.

Lemma restore_of_saved_context :
  (forall r, (r < 32)%nat -> regs t' r = regs b r)
  /\ sreg t' = sreg b
  /\ sp t' = sp b
  /\ (pc3 = true -> rampz t' = rampz b /\ eind t' = eind b)
  /\ mem t' = mem t.
Proof.
  assert (Hn : n = if pc3 then 35%nat else 33%nat) by apply context_size_nat.
  unfold t'. rewrite (restore_split pxCurrentTCB pc3), run_app.
  set (t3 := run pc3 (restore_stack_pointer pxCurrentTCB pc3) t).
  assert (Hsp3 : sp t3 = sp b1).
  { unfold t3. rewrite restore_stack_pointer_sp. exact tcb_holds_sp. }
  assert (Hm3 : mem t3 = mem t) by apply restore_stack_pointer_mem.
  assert (Hr0 : r0_pop pc3 = n) by (rewrite Hn; destruct pc3; reflexivity).
  split; [| split; [| split; [| split]]].
  - intros r Hr. destruct (Nat.eq_dec r 0) as [-> | Hr0'].
    + rewrite restore_pops_r0, Hsp3, Hm3, Hr0, restored_byte by (destruct pc3; lia).
      rewrite Nat.sub_diag. destruct pc3; reflexivity.
    + rewrite restore_pops_regs, Hsp3, Hm3, restored_byte by (destruct pc3; lia).
      rewrite <- (saved_context_reg pc3 b r) by lia. f_equal.
      unfold reg_slot. destruct pc3; lia.
  - rewrite restore_pops_sreg, Hsp3, Hm3, restored_byte
      by (unfold sreg_pop; destruct pc3; lia).
    rewrite Hn. destruct pc3; reflexivity.
  - rewrite restore_pops_sp, Hsp3, Hr0.
    rewrite pops_addr_eq by (rewrite pushed_sp; apply wrap16_range).
    rewrite pushed_sp, wrap16_add_l.
    replace (sp b - Z.of_nat n + Z.of_nat n) with (sp b) by lia.
    apply wrap16_small. exact sp_range.
  - intros Hpc. destruct (restore_pops_extended_if pxCurrentTCB pc3 t3) as [A B].
    rewrite A, B, Hpc, Hsp3, Hm3. rewrite Hpc in Hn.
    rewrite !restored_byte by lia.
    rewrite Hn, Hpc. split; reflexivity.
  - destruct (restore_pops_mem_pc pxCurrentTCB pc3 t3) as [E _]. rewrite E. exact Hm3.
Qed.

(** The return address of the saved task is still above its context. *)
Hypothesis return_address_intact :
  forall j, (1 <= j <= if pc3 then 3 else 2)%nat ->
  mem t (wrap16 (sp b1 + Z.of_nat (n + j))) = mem b1 (wrap16 (sp b1 + Z.of_nat (n + j))).

Lemma resume_and_return :
  let f := run pc3 [RET] t' in
  (forall r, (r < 32)%nat -> regs f r = regs b r)
  /\ sreg f = sreg b
  /\ sp f = sp (run pc3 [RET] b)
  /\ pc f = pc (run pc3 [RET] b)
  /\ (pc3 = true -> rampz f = rampz b /\ eind f = eind b).
Proof.
  intros f.
  destruct restore_of_saved_context as [Hr [Hs [Hsp [Hx Hm]]]].
  destruct (ret_keeps pc3 t') as [Kr Ks].
  destruct (ret_extended pc3 t') as [Kz Ke].
  assert (Hbyte : forall j, (1 <= j <= if pc3 then 3 else 2)%nat ->
            mem t' (pops_addr (sp t') j) = mem b (pops_addr (sp b) j)).
  { intros j Hj. rewrite Hm, Hsp, !pops_addr_eq by exact sp_range.
    rewrite <- (return_address_above j) by (destruct pc3; lia).
    rewrite <- return_address_intact by exact Hj.
    f_equal. rewrite pushed_sp, wrap16_add_l. f_equal. lia. }
  unfold f. split; [| split; [| split; [| split]]].
  - intros r Hlt. rewrite Kr. apply Hr. exact Hlt.
  - rewrite Ks. exact Hs.
  - rewrite !ret_sp, Hsp. reflexivity.
  - rewrite !ret_pc. destruct pc3; rewrite !Hbyte by lia; reflexivity.
  - intros Hpc. rewrite Kz, Ke. apply Hx. exact Hpc.
Qed.

End Resume.

Lemma saved_area_size pc3 :
  Z.to_nat (context_size pc3 + pc_size pc3)
  = (Z.to_nat (context_size pc3) + if pc3 then 3 else 2)%nat.
Proof. destruct pc3; reflexivity. Qed.

(** What the entry points have in common: the restore and the return, from
    a processor [t] whose memory holds the context and the return address
    of the task that was [b] when it was saved. *)
Lemma restore_and_ret_resume pxCurrentTCB pc3 b t :
  0 <= sp b < 65536 ->
  let b1 := run pc3 (save_pushes pxCurrentTCB pc3) b in
  tcb_sp pxCurrentTCB (mem t) = sp b1 ->
  same_above (Z.to_nat (context_size pc3 + pc_size pc3)) (sp b1) (mem t) (mem b1) = true ->
  let f := run pc3 [RET] (run pc3 (portRESTORE_CONTEXT pxCurrentTCB pc3) t) in
  (forall r, (r < 32)%nat -> regs f r = regs b r)
  /\ sreg f = sreg b
  /\ sp f = sp (run pc3 [RET] b)
  /\ pc f = pc (run pc3 [RET] b)
  /\ (pc3 = true -> rampz f = rampz b /\ eind f = eind b).
Proof.
  intros Hsp b1 Htcb Hsame.
  pose proof (same_above_spec _ _ _ _ Hsame) as Hk.
  rewrite saved_area_size in Hk.
  apply resume_and_return; try assumption.
  - intros k Hle. apply Hk. lia.
  - intros j Hj. apply Hk. lia.
Qed.

(** vPortYield() leaves the processor as the task the core selected was
    when it was saved, and returns where that task's own [ret] would. *)
Theorem vPortYield_resumes_the_selected_task
    (pxCurrentTCB : Z) (pc3 : bool) (vTaskSwitchContext : state -> state)
    (a b : state) :
  0 <= sp b < 65536 ->
  let t := vTaskSwitchContext (run pc3 (portSAVE_CONTEXT pxCurrentTCB pc3) a) in
  let b1 := run pc3 (save_pushes pxCurrentTCB pc3) b in
  tcb_sp pxCurrentTCB (mem t) = sp b1 ->
  same_above (Z.to_nat (context_size pc3 + pc_size pc3)) (sp b1) (mem t) (mem b1) = true ->
  let f := Naked.vPortYield pxCurrentTCB pc3 vTaskSwitchContext a in
  (forall r, (r < 32)%nat -> regs f r = regs b r)
  /\ sreg f = sreg b
  /\ sp f = sp (run pc3 [RET] b)
  /\ pc f = pc (run pc3 [RET] b)
  /\ (pc3 = true -> rampz f = rampz b /\ eind f = eind b).
Proof.
  intros Hsp t b1 Htcb Hsame f.
  exact (restore_and_ret_resume pxCurrentTCB pc3 b t Hsp Htcb Hsame).
Qed.

Lemma vPortYield_resumes_the_selected_task_example :
  let f := Naked.vPortYield 0x0100 false example_core example_state in
  (forall r, (r < 32)%nat -> regs f r = Z.of_nat r + 100)
  /\ sreg f = 0x83 /\ sp f = 0x0901 /\ pc f = 0.
Proof.
  destruct (vPortYield_resumes_the_selected_task 0x0100 false example_core
              example_state example_state) as [A [B [C [D _]]]].
  - cbn. lia.
  - vm_compute. reflexivity.
  - vm_compute. reflexivity.
  - split; [exact A | split; [exact B | split; [exact C | exact D]]].
Defined.

(** vPortYieldFromTick(): the same, for the task current after the tick;
    vTaskSwitchContext runs only when xTaskIncrementTick asks for it. *)
Theorem vPortYieldFromTick_resumes_the_current_task
    (pxCurrentTCB : Z) (pc3 : bool)
    (xTaskIncrementTick : state -> Z * state) (vTaskSwitchContext : state -> state)
    (a b : state) :
  0 <= sp b < 65536 ->
  let ticked := xTaskIncrementTick (run pc3 (portSAVE_CONTEXT pxCurrentTCB pc3) a) in
  let t := if fst ticked =? Entry.pdFALSE
           then snd ticked else vTaskSwitchContext (snd ticked) in
  let b1 := run pc3 (save_pushes pxCurrentTCB pc3) b in
  tcb_sp pxCurrentTCB (mem t) = sp b1 ->
  same_above (Z.to_nat (context_size pc3 + pc_size pc3)) (sp b1) (mem t) (mem b1) = true ->
  let f := Naked.vPortYieldFromTick pxCurrentTCB pc3
             xTaskIncrementTick vTaskSwitchContext a in
  (forall r, (r < 32)%nat -> regs f r = regs b r)
  /\ sreg f = sreg b
  /\ sp f = sp (run pc3 [RET] b)
  /\ pc f = pc (run pc3 [RET] b)
  /\ (pc3 = true -> rampz f = rampz b /\ eind f = eind b).
Proof.
  intros Hsp ticked t b1 Htcb Hsame f.
  assert (E : f = run pc3 [RET] (run pc3 (portRESTORE_CONTEXT pxCurrentTCB pc3) t)).
  { unfold f, Naked.vPortYieldFromTick, t, ticked.
    destruct (xTaskIncrementTick (run pc3 (portSAVE_CONTEXT pxCurrentTCB pc3) a))
      as [r s'].
    cbn [fst snd]. destruct (r =? Entry.pdFALSE); reflexivity. }
  rewrite E.
  exact (restore_and_ret_resume pxCurrentTCB pc3 b t Hsp Htcb Hsame).
Qed.

Lemma vPortYieldFromTick_resumes_the_current_task_example :
  let f := Naked.vPortYieldFromTick 0x0100 false
             (fun s => (0, example_core s)) (fun s => s) example_state in
  (forall r, (r < 32)%nat -> regs f r = Z.of_nat r + 100)
  /\ sreg f = 0x83 /\ sp f = 0x0901.
Proof.
  destruct (vPortYieldFromTick_resumes_the_current_task 0x0100 false
              (fun s => (0, example_core s)) (fun s => s)
              example_state example_state) as [A [B [C _]]].
  - cbn. lia.
  - vm_compute. reflexivity.
  - vm_compute. reflexivity.
  - split; [exact A | split; [exact B | exact C]].
Defined.

(* ================================================================= *)
(** ** The builder and the start of the scheduler *)

(** pxPortInitialiseStack() stores the known bytes 0x11, 0x22, 0x33 at the
    top of the stack, changes no byte outside the 38 (with a 3-byte PC, 41)
    bytes from the top down, and returns the address just below them. *)
Theorem pxPortInitialiseStack_footprint
    (pc3 : bool) (pxTopOfStack pxCode pvParameters : Z) (m : memory) :
  0 <= pxTopOfStack < 65536 ->
  let built := pxPortInitialiseStack pc3 pxTopOfStack pxCode pvParameters m in
  snd built = wrap16 (pxTopOfStack - Z.of_nat (frame_size pc3))
  /\ (forall a, below (frame_size pc3) pxTopOfStack a = false -> fst built a = m a)
  /\ fst built pxTopOfStack = 0x11
  /\ fst built (wrap16 (pxTopOfStack - 1)) = 0x22
  /\ fst built (wrap16 (pxTopOfStack - 2)) = 0x33.
Proof.
  intros Htop built.
  assert (Hlen : Z.of_nat (length (frame_bytes pc3 pxCode pvParameters)) <= 65536).
  { rewrite frame_bytes_length. destruct pc3; cbn; lia. }
  assert (Hget : forall i, (i < 3)%nat ->
            fst built (wrap16 (pxTopOfStack - Z.of_nat i))
            = nth i (frame_bytes pc3 pxCode pvParameters) 0).
  { intros i Hi. unfold built. rewrite builder_writes_frame.
    apply write_down_get; [exact Htop | exact Hlen |].
    rewrite frame_bytes_length. destruct pc3; cbn; lia. }
  split; [apply builder_pointer; exact Htop |].
  split; [| split; [| split]].
  - intros a Ha. unfold built. rewrite builder_writes_frame.
    apply write_down_other; [exact Htop |].
    rewrite frame_bytes_length. apply below_false. exact Ha.
  - assert (H0 := Hget 0%nat ltac:(lia)).
    change (Z.of_nat 0) with 0 in H0.
    rewrite Z.sub_0_r, wrap16_small in H0 by exact Htop.
    rewrite H0. destruct pc3; reflexivity.
  - change 1 with (Z.of_nat 1). rewrite (Hget 1%nat) by lia.
    destruct pc3; reflexivity.
  - change 2 with (Z.of_nat 2). rewrite (Hget 2%nat) by lia.
    destruct pc3; reflexivity.
Qed.

Lemma pxPortInitialiseStack_footprint_example :
  snd example_frame = 0x08FF - 38
  /\ fst example_frame 0x0900 = 0
  /\ fst example_frame 0x08FF = 0x11.
Proof.
  destruct (pxPortInitialiseStack_footprint false 0x08FF 0x1234 0xBEEF (fun _ => 0))
    as [A [B [C _]]].
  - lia.
  - split; [exact A | split; [| exact C]].
    apply (B 0x0900). vm_compute. reflexivity.
Defined.

Lemma return_bytes_are_write_down pc3 top code m :
  put_return_address pc3 code (m, top)
  = write_down (m, top) (return_address_bytes pc3 code).
Proof. destruct pc3; reflexivity. Qed.

Lemma return_address_bytes_length pc3 code :
  length (return_address_bytes pc3 code) = (3 + Z.to_nat (pc_size pc3))%nat.
Proof. destruct pc3; reflexivity. Qed.

(** The task as the builder describes it: the registers of
    [first_run_state], on the stack that holds the return address. *)
Lemma first_run_ret pc3 top code param m :
  0 <= top < 65536 ->
  0 <= code < 65536 ->
  let st := put_return_address pc3 code (m, top) in
  let s0 := first_run_state param (fst st) (snd st) in
  0 <= sp s0 < 65536
  /\ pc (run pc3 [RET] s0) = code
  /\ sp (run pc3 [RET] s0) = wrap16 (top - 3).
Proof.
  intros Htop Hcode st s0.
  assert (Est : st = write_down (m, top) (return_address_bytes pc3 code))
    by apply return_bytes_are_write_down.
  assert (Hp : sp s0 = wrap16 (top - Z.of_nat (3 + Z.to_nat (pc_size pc3)))).
  { unfold s0. cbn [first_run_state sp]. rewrite Est, write_down_ptr by exact Htop.
    rewrite return_address_bytes_length. reflexivity. }
  assert (Hr : 0 <= sp s0 < 65536) by (rewrite Hp; apply wrap16_range).
  assert (Hb : forall j, (1 <= j <= Z.to_nat (pc_size pc3))%nat ->
            mem s0 (pops_addr (sp s0) j)
            = nth (3 + Z.to_nat (pc_size pc3) - j) (return_address_bytes pc3 code) 0).
  { intros j Hj. rewrite pops_addr_eq by exact Hr.
    rewrite Hp, wrap16_add_l.
    replace (top - Z.of_nat (3 + Z.to_nat (pc_size pc3)) + Z.of_nat j)
      with (top - Z.of_nat (3 + Z.to_nat (pc_size pc3) - j)) by lia.
    unfold s0. cbn [first_run_state mem]. rewrite Est.
    apply write_down_get.
    - exact Htop.
    - rewrite return_address_bytes_length. destruct pc3; cbn; lia.
    - rewrite return_address_bytes_length. lia. }
  split; [exact Hr |]. split.
  - rewrite ret_pc. destruct pc3; rewrite !Hb by (cbn; lia);
      cbn [pc_size Z.to_nat Pos.to_nat Pos.iter_op Nat.add Nat.sub
           return_address_bytes app nth];
      rewrite ?Z.mul_0_r, ?Z.add_0_l; apply address_from_bytes; exact Hcode.
  - rewrite ret_sp, pops_addr_eq, Hp, wrap16_add_l by exact Hr.
    f_equal. destruct pc3; cbn; lia.
Qed.

(** xPortStartScheduler(), for a first task whose stack the builder made:
    when the set-up of the tick source is defined, the task is entered at
    its start address with the stack pointer just below the three known
    bytes, interrupts enabled, r1 zero and every register holding the
    builder's value for it (the parameter in r25:r24). *)
Theorem xPortStartScheduler_enters_the_first_task
    (T : Type) (prvSetupTimerInterrupt : T -> option T) (hw hw' : T)
    (pxCurrentTCB : Z) (pc3 : bool) (pxTopOfStack pxCode pvParameters : Z)
    (m : memory) (s : state) :
  0 <= pxTopOfStack < 65536 ->
  0 <= pxCode < 65536 ->
  prvSetupTimerInterrupt hw = Some hw' ->
  let built := pxPortInitialiseStack pc3 pxTopOfStack pxCode pvParameters m in
  tcb_sp pxCurrentTCB (mem s) = snd built ->
  same_above (Z.to_nat (context_size pc3 + pc_size pc3)) (snd built) (mem s) (fst built)
    = true ->
  exists f,
    Naked.xPortStartScheduler pxCurrentTCB pc3 prvSetupTimerInterrupt (hw, s)
      = Some (hw', f)
    /\ pc f = pxCode
    /\ sp f = wrap16 (pxTopOfStack - 3)
    /\ interrupts_enabled f = true
    /\ regs f 1%nat = 0
    /\ (forall r, (r < 32)%nat -> regs f r = initial_registers pvParameters r)
    /\ (pc3 = true -> rampz f = 0 /\ eind f = 0).
Proof.
  intros Htop Hcode Hset built Htcb Hsame.
  set (st := put_return_address pc3 pxCode (m, pxTopOfStack)).
  set (s0 := first_run_state pvParameters (fst st) (snd st)).
  destruct (first_run_ret pc3 pxTopOfStack pxCode pvParameters m Htop Hcode)
    as [Hr [Hpc Hsp]]. fold st s0 in Hr, Hpc, Hsp.
  assert (Eb : built = write_down st (saved_context pc3 s0)).
  { unfold built. rewrite builder_is_write_down.
    unfold st at 1. rewrite return_bytes_are_write_down. reflexivity. }
  assert (Em : mem (run pc3 (save_pushes pxCurrentTCB pc3) s0) = fst built).
  { rewrite save_pushes_mem, Eb. destruct st; reflexivity. }
  assert (Ep : sp (run pc3 (save_pushes pxCurrentTCB pc3) s0) = snd built).
  { rewrite save_pushes_sp, Eb. destruct st; reflexivity. }
  rewrite <- Ep in Htcb, Hsame. rewrite <- Em in Hsame.
  destruct (restore_and_ret_resume pxCurrentTCB pc3 s0 s Hr Htcb Hsame)
    as [A [B [C [D E]]]].
  eexists. split.
  - unfold Naked.xPortStartScheduler. rewrite Hset. reflexivity.
  - split; [rewrite D; exact Hpc |].
    split; [rewrite C; exact Hsp |].
    split; [unfold interrupts_enabled; rewrite B; reflexivity |].
    split; [rewrite A by lia; reflexivity |].
    split; [exact A |].
    intros H. apply E in H. exact H.
Qed.

Lemma xPortStartScheduler_enters_the_first_task_example :
  exists f,
    Naked.xPortStartScheduler 0x0100 false (fun h : unit => Some h) (tt, example_first_state)
      = Some (tt, f)
    /\ pc f = 0x1234 /\ sp f = 0x08FC /\ regs f 1%nat = 0.
Proof.
  destruct (xPortStartScheduler_enters_the_first_task unit (fun h => Some h) tt tt
              0x0100 false 0x08FF 0x1234 0xBEEF (fun _ => 0) example_first_state)
    as [f [E [A [B [_ [C _]]]]]].
  - lia.
  - lia.
  - reflexivity.
  - vm_compute. reflexivity.
  - vm_compute. reflexivity.
  - exists f. split; [exact E | split; [exact A | split; [exact B | exact C]]].
Defined.

(* ================================================================= *)
(** ** What portSAVE_CONTEXT() changes *)

Lemma save_registers_kept pxCurrentTCB pc3 s r :
  (2 <= r <= 25)%nat \/ (28 <= r <= 31)%nat ->
  regs (run pc3 (portSAVE_CONTEXT pxCurrentTCB pc3) s) r = regs s r.
Proof.
  intros H. do 2 (destruct r as [| r]; [lia |]).
  do 24 (destruct r as [| r]; [destruct s, pc3; reflexivity |]).
  do 2 (destruct r as [| r]; [lia |]).
  do 4 (destruct r as [| r]; [destruct s, pc3; reflexivity |]).
  lia.
Qed.

Lemma save_interrupts_off pxCurrentTCB pc3 s :
  interrupts_enabled (run pc3 (portSAVE_CONTEXT pxCurrentTCB pc3) s) = false.
Proof.
  destruct s as [rg sr p c rz ei m].
  destruct pc3; symex_sreg; cbv [I_BIT]; rewrite ?clr_flags_I_bit; apply I_bit_cleared.
Qed.

(** After portSAVE_CONTEXT(), when no data address it uses is that of a
    register (see [save_touches_no_register]): interrupts are off, r1 is zero,
    r2 .. r25 and r28 .. r31 are as before, the stack pointer is lower by
    the size of the context, and memory differs only in the bytes pushed to
    and in the two bytes of the control block that receive the stack
    pointer. *)
Theorem portSAVE_CONTEXT_effects (pxCurrentTCB : Z) (pc3 : bool) (s : state) :
  0 <= sp s < 65536 ->
  save_touches_no_register pxCurrentTCB pc3 s = true ->
  let s' := run pc3 (portSAVE_CONTEXT pxCurrentTCB pc3) s in
  let tcb := current_tcb pxCurrentTCB (mem (run pc3 (save_pushes pxCurrentTCB pc3) s)) in
  interrupts_enabled s' = false
  /\ regs s' zero_reg = 0
  /\ (forall r, (2 <= r <= 25)%nat \/ (28 <= r <= 31)%nat -> regs s' r = regs s r)
  /\ sp s' = wrap16 (sp s - context_size pc3)
  /\ (forall a, below (Z.to_nat (context_size pc3)) (sp s) a = false ->
                a <> tcb -> a <> wrap16 (tcb + 1) -> mem s' a = mem s a).
Proof.
  intros Hsp _ s' tcb.
  assert (E : s' = run pc3 (save_stack_pointer pxCurrentTCB pc3)
                     (run pc3 (save_pushes pxCurrentTCB pc3) s)).
  { unfold s'. rewrite (save_split pxCurrentTCB pc3) at 1. apply run_app. }
  split; [apply save_interrupts_off |].
  split; [destruct s, pc3; reflexivity |].
  split; [intros r Hr; apply save_registers_kept; exact Hr |].
  split.
  - rewrite E, save_stack_pointer_sp, s1_sp by exact Hsp.
    f_equal. destruct pc3; reflexivity.
  - intros a Ha Ht1 Ht2. rewrite E, save_stack_pointer_mem. cbv zeta.
    fold tcb. rewrite !upd_other by assumption.
    apply s1_mem_outside; [exact Hsp |]. apply below_false. exact Ha.
Qed.

Lemma portSAVE_CONTEXT_effects_example :
  let s' := run false (portSAVE_CONTEXT 0x0100 false) example_state in
  interrupts_enabled s' = false /\ regs s' 1%nat = 0 /\ sp s' = 0x08FF - 33
  /\ mem s' 0x0900 = 0.
Proof.
  destruct (portSAVE_CONTEXT_effects 0x0100 false example_state) as [A [B [_ [C D]]]].
  - cbn. lia.
  - vm_compute. reflexivity.
  - split; [exact A | split; [exact B | split; [exact C |]]].
    rewrite (D 0x0900); [reflexivity | vm_compute; reflexivity | |];
      vm_compute; discriminate.
Defined.

(* ================================================================= *)
(** ** Sequences of tick interrupts *)

Section TickSequences.
Import Entry.
Variable K : Type.
Variable xTaskIncrementTick : K -> Z * K.
Variable vTaskSwitchContext : K -> K.

Lemma portSCHEDULER_ISR_log c (w : world K) :
  log (portSCHEDULER_ISR xTaskIncrementTick vTaskSwitchContext c w)
  = if c =? 1
    then log (vPortYieldFromTick xTaskIncrementTick vTaskSwitchContext w) ++ [A_reti]
    else log w ++ [A_xTaskIncrementTick].
Proof.
  unfold portSCHEDULER_ISR. destruct (c =? 1).
  - reflexivity.
  - unfold call_xTaskIncrementTick, note.
    destruct (xTaskIncrementTick (core w)). reflexivity.
Qed.

Lemma portSCHEDULER_ISR_core c (w : world K) :
  core (portSCHEDULER_ISR xTaskIncrementTick vTaskSwitchContext c w)
  = let (r, k) := xTaskIncrementTick (core w) in
    if (c =? 1) && negb (r =? pdFALSE) then vTaskSwitchContext k else k.
Proof.
  unfold portSCHEDULER_ISR, vPortYieldFromTick, call_xTaskIncrementTick,
    call_vTaskSwitchContext, note.
  destruct (c =? 1); cbn [core vars log andb];
    destruct (xTaskIncrementTick (core w)) as [r k]; cbn [snd core].
  - destruct (negb (r =? pdFALSE)); reflexivity.
  - reflexivity.
Qed.

Lemma times_one_tick a c (w : world K) :
  times a (portSCHEDULER_ISR xTaskIncrementTick vTaskSwitchContext c w)
  = (times a w
     + length (filter (action_eqb a)
         (if (c =? 1)%Z
          then [A_portSAVE_CONTEXT; A_xTaskIncrementTick]
               ++ (if (fst (xTaskIncrementTick (core w)) =? pdFALSE)%Z
                   then [] else [A_vTaskSwitchContext])
               ++ [A_portRESTORE_CONTEXT; A_ret; A_reti]
          else [A_xTaskIncrementTick])))%nat.
Proof.
  unfold times at 1. rewrite portSCHEDULER_ISR_log.
  destruct (c =? 1).
  - rewrite vPortYieldFromTick_log, <- !app_assoc.
    rewrite times_app. reflexivity.
  - apply times_app.
Qed.

End TickSequences.

(** In [n] tick interrupts xTaskIncrementTick is called exactly [n] times,
    whatever configUSE_PREEMPTION is and whatever the calls return. *)
Theorem ticks_advance_the_tick_count_once_each
    (K : Type) (xTaskIncrementTick : K -> Z * K) (vTaskSwitchContext : K -> K)
    (configUSE_PREEMPTION : Z) (n : nat) (w : Entry.world K) :
  Entry.times Entry.A_xTaskIncrementTick
    (Entry.ticks xTaskIncrementTick vTaskSwitchContext configUSE_PREEMPTION n w)
  = (n + Entry.times Entry.A_xTaskIncrementTick w)%nat.
Proof.
  revert w. induction n as [| n IH]; intros w.
  - reflexivity.
  - cbn [Entry.ticks]. rewrite IH, times_one_tick.
    destruct (configUSE_PREEMPTION =? 1).
    + destruct (fst (xTaskIncrementTick (Entry.core w)) =? Entry.pdFALSE);
        cbn [app filter Entry.action_eqb length]; lia.
    + cbn [filter Entry.action_eqb length]. lia.
Qed.

(** With configUSE_PREEMPTION other than 1, [n] tick interrupts do nothing
    but call xTaskIncrementTick [n] times: no context is saved or restored,
    vTaskSwitchContext is not called, and the core is in the state [n]
    calls of xTaskIncrementTick leave it in. *)
Theorem cooperative_ticks_only_count
    (K : Type) (xTaskIncrementTick : K -> Z * K) (vTaskSwitchContext : K -> K)
    (configUSE_PREEMPTION : Z) (n : nat) (w : Entry.world K) :
  configUSE_PREEMPTION <> 1 ->
  let w' := Entry.ticks xTaskIncrementTick vTaskSwitchContext configUSE_PREEMPTION n w in
  Entry.log w' = Entry.log w ++ repeat Entry.A_xTaskIncrementTick n
  /\ Entry.core w' = Nat.iter n (fun k => snd (xTaskIncrementTick k)) (Entry.core w).
Proof.
  intros Hc. apply Z.eqb_neq in Hc.
  revert w. induction n as [| n IH]; intros w; cbn zeta.
  - cbn [Entry.ticks repeat Nat.iter nat_rect]. rewrite app_nil_r. split; reflexivity.
  - cbn [Entry.ticks]. destruct (IH (Entry.portSCHEDULER_ISR xTaskIncrementTick
                                        vTaskSwitchContext configUSE_PREEMPTION w))
      as [L C]. cbn zeta in L, C. rewrite L, C.
    rewrite portSCHEDULER_ISR_log, portSCHEDULER_ISR_core, Hc. cbn [andb].
    split.
    + rewrite <- app_assoc. reflexivity.
    + rewrite Nat.iter_succ_r.
      destruct (xTaskIncrementTick (Entry.core w)) as [r k]. reflexivity.
Qed.

Lemma cooperative_ticks_only_count_example :
  Entry.log (Entry.ticks (fun k : nat => (1, S k)) (fun k => k) 0 3
               (Entry.mkWorld 0%nat (mkPortVars 0 0) []))
  = repeat Entry.A_xTaskIncrementTick 3.
Proof.
  destruct (cooperative_ticks_only_count nat (fun k => (1, S k)) (fun k => k) 0 3
              (Entry.mkWorld 0%nat (mkPortVars 0 0) [])) as [L _].
  - lia.
  - exact L.
Defined.

(** With configUSE_PREEMPTION equal to 1, [n] tick interrupts save a context
    [n] times and restore one [n] times, and call vTaskSwitchContext at most
    [n] times. *)
Theorem preemptive_ticks_save_and_restore_once_each
    (K : Type) (xTaskIncrementTick : K -> Z * K) (vTaskSwitchContext : K -> K)
    (n : nat) (w : Entry.world K) :
  let w' := Entry.ticks xTaskIncrementTick vTaskSwitchContext 1 n w in
  Entry.times Entry.A_portSAVE_CONTEXT w' = (n + Entry.times Entry.A_portSAVE_CONTEXT w)%nat
  /\ Entry.times Entry.A_portRESTORE_CONTEXT w'
     = (n + Entry.times Entry.A_portRESTORE_CONTEXT w)%nat
  /\ (Entry.times Entry.A_vTaskSwitchContext w'
      <= n + Entry.times Entry.A_vTaskSwitchContext w)%nat.
Proof.
  revert w. induction n as [| n IH]; intros w; cbn zeta.
  - cbn [Entry.ticks]. repeat split. lia.
  - cbn [Entry.ticks].
    destruct (IH (Entry.portSCHEDULER_ISR xTaskIncrementTick vTaskSwitchContext 1 w))
      as [A [B C]]. cbn zeta in A, B, C.
    rewrite A, B. rewrite !times_one_tick in *.
    change (1 =? 1) with true in *. cbv iota in *.
    destruct (fst (xTaskIncrementTick (Entry.core w)) =? Entry.pdFALSE);
      cbn [app filter Entry.action_eqb length] in *; repeat split; lia.
Qed.

(* ================================================================= *)
(** ** The watchdog set-up: flags, prescale bits, the reset variant *)

Lemma land_8_is_bit_3 v : (Z.land v 0x08 =? 0) = negb (Z.testbit v 3).
Proof.
  destruct (Z.testbit v 3) eqn:E; cbn [negb].
  - apply Z.eqb_neq. intros H.
    assert (B : Z.testbit (Z.land v 8) 3 = true).
    { rewrite Z.land_spec, E. reflexivity. }
    rewrite H in B. discriminate B.
  - apply Z.eqb_eq. apply Z.bits_inj'. intros n Hn.
    rewrite Z.land_spec, Z.bits_0. change 8 with (2 ^ 3).
    rewrite Z.pow2_bits_eqb by lia.
    destruct (Z.eqb_spec 3 n) as [<- | _]; [rewrite E |]; btauto.
Qed.

Lemma uint8_low_bits v n : n < 8 -> Z.testbit (uint8 v) n = Z.testbit v n.
Proof.
  intros H. rewrite uint8_bit.
  assert (E : (n <? 8) = true) by (apply Z.ltb_lt; exact H).
  rewrite E. reflexivity.
Qed.

Lemma uint8_lor a b : uint8 (Z.lor a b) = Z.lor (uint8 a) (uint8 b).
Proof.
  apply Z.bits_inj'. intros n _.
  rewrite uint8_bit, !Z.lor_spec, !uint8_bit. btauto.
Qed.

Lemma wdt_interrupt_enable_state
    WD_CHANGE_BIT WDE WDIF WDIE WD_PS3_MASK is_io value h :
  let h' := WDT.wdt_interrupt_enable WD_CHANGE_BIT WDE WDIF WDIE WD_PS3_MASK is_io value h in
  WDT.SREG h' = WDT.SREG h
  /\ WDT.tmp h' = WDT.SREG h
  /\ WDT.restarts h' = S (WDT.restarts h).
Proof. unfold WDT.wdt_interrupt_enable. destruct is_io; repeat split. Qed.

(** wdt_interrupt_enable puts the status register back as it found it (so
    the interrupt-enable state of the caller is kept), restarts the
    watchdog once, and writes the prescale selection: the three low bits of
    [value] go to the three low bits of the control register, bit 3 of
    [value] to the bit WDP3; the interrupt flag bit is written as 1. *)
Theorem wdt_interrupt_enable_keeps_flags_and_selects_prescale
    (WD_CHANGE_BIT WDE WDIF WDIE WDP3 : Z) (is_io : bool) (value : Z) (h : WDT.hw) :
  3 <= WDIF < 8 ->
  3 <= WDIE ->
  3 <= WDP3 < 8 ->
  WDP3 <> WDIF ->
  WDP3 <> WDIE ->
  let h' := WDT.wdt_interrupt_enable WD_CHANGE_BIT WDE WDIF WDIE (_BV WDP3)
              is_io value h in
  WDT.SREG h' = WDT.SREG h
  /\ WDT.restarts h' = S (WDT.restarts h)
  /\ Z.land (WDT.WD_CONTROL_REG h') 0x07 = Z.land value 0x07
  /\ Z.testbit (WDT.WD_CONTROL_REG h') WDP3 = Z.testbit value 3
  /\ Z.testbit (WDT.WD_CONTROL_REG h') WDIF = true.
Proof.
  intros HF HE HP HPF HPE h'.
  destruct (wdt_interrupt_enable_state WD_CHANGE_BIT WDE WDIF WDIE (_BV WDP3)
              is_io value h) as [A [_ B]].
  split; [exact A |]. split; [exact B |].
  unfold h'. rewrite wdt_interrupt_enable_control.
  set (ps := if Z.land (uint8 value) 8 =? 0 then 0 else _BV WDP3).
  assert (Hps : forall n, 0 <= n ->
            Z.testbit ps n = (n =? WDP3) && Z.testbit value 3).
  { intros n Hn. unfold ps. rewrite land_8_is_bit_3, uint8_low_bits by lia.
    destruct (Z.testbit value 3); cbn [negb].
    - destruct (Z.eqb_spec n WDP3) as [-> | Hne].
      + apply BV_bit. lia.
      + apply BV_other_bit; [lia | exact Hne].
    - rewrite Z.bits_0. btauto. }
  split; [| split].
  - apply Z.bits_inj'. intros n Hn.
    rewrite !Z.land_spec. change 7 with (Z.ones 3).
    destruct (Z.ltb_spec n 3) as [Hlt | Hge].
    + rewrite Z.ones_spec_low by lia.
      rewrite uint8_low_bits, !Z.lor_spec, Hps, Z.land_spec by lia.
      rewrite (BV_other_bit WDIF), (BV_other_bit WDIE) by lia.
      rewrite Z.ones_spec_low, uint8_low_bits by lia.
      destruct (Z.eqb_spec n WDP3); [lia |]. btauto.
    + rewrite Z.ones_spec_high by lia. btauto.
  - rewrite uint8_low_bits, !Z.lor_spec, Hps, low3_high_bit by lia.
    rewrite (BV_other_bit WDIF), (BV_other_bit WDIE), Z.eqb_refl by lia.
    btauto.
  - rewrite uint8_low_bits, !Z.lor_spec, BV_bit by lia. btauto.
Qed.

(** The ATmega328P (WDP3 is bit 5) and the period WDTO_8S = 9. *)
Lemma wdt_interrupt_enable_prescale_atmega328p :
  let h' := WDT.wdt_interrupt_enable 4 3 7 6 (_BV 5) false 9 (WDT.mkHw 0 0x80 0 0) in
  WDT.SREG h' = 0x80
  /\ Z.land (WDT.WD_CONTROL_REG h') 0x07 = 1
  /\ Z.testbit (WDT.WD_CONTROL_REG h') 5 = true.
Proof.
  destruct (wdt_interrupt_enable_keeps_flags_and_selects_prescale 4 3 7 6 5 false 9
              (WDT.mkHw 0 0x80 0 0)) as [A [_ [B [C _]]]]; try lia.
  split; [exact A | split; [exact B | exact C]].
Defined.

Lemma wdt_interrupt_reset_enable_control
    WD_CHANGE_BIT WDE WDIF WDIE WD_PS3_MASK is_io value h :
  WDT.WD_CONTROL_REG
    (WDT.wdt_interrupt_reset_enable WD_CHANGE_BIT WDE WDIF WDIE WD_PS3_MASK is_io value h)
  = uint8 (Z.lor (Z.lor (Z.lor (Z.lor (if Z.land (uint8 value) 0x08 =? 0
                                       then 0x00 else WD_PS3_MASK)
                                      (_BV WDIF))
                               (_BV WDIE))
                        (_BV WDE))
                 (Z.land (uint8 value) 0x07)).
Proof. unfold WDT.wdt_interrupt_reset_enable. destruct is_io; reflexivity. Qed.

(** wdt_interrupt_reset_enable leaves in the control register what
    wdt_interrupt_enable leaves there with the reset bit added, so that
    both WDIE and WDE are set; like it, it keeps the status register. *)
Theorem wdt_interrupt_reset_enable_adds_the_reset_bit
    (WD_CHANGE_BIT WDE WDIF WDIE WD_PS3_MASK : Z) (is_io : bool)
    (value : Z) (h : WDT.hw) :
  0 <= WDE < 8 ->
  0 <= WDIE < 8 ->
  let hr := WDT.wdt_interrupt_reset_enable WD_CHANGE_BIT WDE WDIF WDIE WD_PS3_MASK
              is_io value h in
  let hi := WDT.wdt_interrupt_enable WD_CHANGE_BIT WDE WDIF WDIE WD_PS3_MASK
              is_io value h in
  WDT.WD_CONTROL_REG hr = Z.lor (WDT.WD_CONTROL_REG hi) (_BV WDE)
  /\ Z.testbit (WDT.WD_CONTROL_REG hr) WDE = true
  /\ Z.testbit (WDT.WD_CONTROL_REG hr) WDIE = true
  /\ WDT.SREG hr = WDT.SREG h.
Proof.
  intros HE HI hr hi.
  assert (Hbv : uint8 (_BV WDE) = _BV WDE).
  { apply Z.bits_inj'. intros n Hn. rewrite uint8_bit.
    destruct (Z.ltb_spec n 8) as [Hlt | Hge]; cbn [andb]; [reflexivity |].
    symmetry. apply BV_other_bit; lia. }
  assert (E : WDT.WD_CONTROL_REG hr = Z.lor (WDT.WD_CONTROL_REG hi) (_BV WDE)).
  { unfold hr, hi.
    rewrite wdt_interrupt_reset_enable_control, wdt_interrupt_enable_control.
    rewrite <- Hbv at 2. rewrite <- uint8_lor. f_equal.
    apply Z.bits_inj'. intros n _. rewrite !Z.lor_spec. btauto. }
  split; [exact E |]. split; [| split].
  - rewrite E, Z.lor_spec, BV_bit by lia. btauto.
  - unfold hr. rewrite wdt_interrupt_reset_enable_control.
    rewrite uint8_low_bits, !Z.lor_spec, (BV_bit WDIE) by lia. btauto.
  - unfold hr, WDT.wdt_interrupt_reset_enable. destruct is_io; reflexivity.
Qed.

Lemma wdt_interrupt_reset_enable_atmega328p :
  let hr := WDT.wdt_interrupt_reset_enable 4 3 7 6 0x20 false 7 (WDT.mkHw 0 0x80 0 0) in
  Z.testbit (WDT.WD_CONTROL_REG hr) 3 = true
  /\ Z.testbit (WDT.WD_CONTROL_REG hr) 6 = true.
Proof.
  destruct (wdt_interrupt_reset_enable_adds_the_reset_bit 4 3 7 6 0x20 false 7
              (WDT.mkHw 0 0x80 0 0)) as [_ [A [B _]]]; try lia.
  split; [exact A | exact B].
Defined.

(* ================================================================= *)
(** ** The compare-match set-up: when it is defined, exact rates, the
       interrupt mask; vPortEndScheduler *)

Lemma zero_quotient clock rate :
  0 <= clock -> 0 < rate -> clock < 1024 * rate -> clock / rate / 1024 = 0.
Proof.
  intros Hc Hr H. apply Z.div_small. split.
  - apply Z.div_pos; lia.
  - apply Z.div_lt_upper_bound; lia.
Qed.

Lemma positive_quotient clock rate :
  0 < rate -> 1024 * rate <= clock -> 1 <= clock / rate / 1024.
Proof.
  intros Hr H. apply Z.div_le_lower_bound; [lia |].
  apply Z.div_le_lower_bound; lia.
Qed.

(** prvSetupTimerInterrupt() for Timer0 has no defined result exactly when
    the requested rate is zero or exceeds clock / 1024, the cases in which
    it divides by zero. *)
Theorem timer0_setup_undefined_iff
    (WGM01 CS02 CS00 OCIE0A clock rate bits : Z) (g0 : port_vars) (h0 : Timer0.hw) :
  0 <= clock < 2 ^ 32 ->
  0 <= rate ->
  Timer0.prvSetupTimerInterrupt WGM01 CS02 CS00 OCIE0A clock rate bits (g0, h0) = None
  <-> rate = 0 \/ clock < 1024 * rate.
Proof.
  intros Hc Hr.
  destruct (Z.eq_dec rate 0) as [-> | Hnz].
  - split; [intros _; left; reflexivity | intros _; reflexivity].
  - destruct (Z.lt_ge_cases clock (1024 * rate)) as [Hlt | Hge].
    + split; [intros _; right; exact Hlt | intros _].
      unfold Timer0.prvSetupTimerInterrupt, Timer0.portCLOCK_PRESCALER.
      assert (E : (rate =? 0) = false) by (apply Z.eqb_neq; exact Hnz). rewrite E.
      assert (Hq : 0 <= clock / rate <= clock).
      { split; [apply Z.div_pos; lia | apply Z.div_le_upper_bound; nia]. }
      rewrite (uint32_small (clock / rate)) by lia.
      rewrite zero_quotient by lia. reflexivity.
    + split.
      * intros H. rewrite setup_defined in H by (try apply positive_quotient; lia).
        discriminate H.
      * intros [H | H]; lia.
Qed.

Lemma timer0_setup_undefined_example :
  Timer0.prvSetupTimerInterrupt 1 2 0 1 8000000 10000 16
    (mkPortVars 0 0, Timer0.mkHw 0 0 0 0) = None.
Proof.
  apply (timer0_setup_undefined_iff 1 2 0 1 8000000 10000 16).
  - lia.
  - lia.
  - right. lia.
Defined.

(** When the clock is exactly rate * 1024 * n for an n between 1 and 256,
    the set-up reports the requested rate itself, starts the count of the
    second from it and writes n - 1 to the compare register. *)
Theorem timer0_exact_rate
    (WGM01 CS02 CS00 OCIE0A rate n bits : Z) (g0 : port_vars) (h0 : Timer0.hw) :
  0 < rate < 2 ^ bits ->
  1 <= n <= 256 ->
  rate * 1024 * n < 2 ^ 32 ->
  exists g h,
    Timer0.prvSetupTimerInterrupt WGM01 CS02 CS00 OCIE0A (rate * 1024 * n) rate bits
      (g0, h0) = Some (g, h)
    /\ portTickRateHz g = rate
    /\ ticksRemainingInSec g = rate
    /\ Timer0.OCR0A h = n - 1.
Proof.
  intros Hr Hn Hc.
  assert (Q : rate * 1024 * n / rate / 1024 = n).
  { replace (rate * 1024 * n) with (1024 * n * rate) by ring.
    rewrite Z.div_mul by lia.
    replace (1024 * n) with (n * 1024) by ring. apply Z.div_mul. lia. }
  assert (R : rate * 1024 * n / (1024 * n) = rate).
  { replace (rate * 1024 * n) with (rate * (1024 * n)) by ring.
    apply Z.div_mul. lia. }
  eexists. eexists. split.
  - apply setup_defined; [nia | lia | rewrite Q; lia].
  - cbn [portTickRateHz ticksRemainingInSec Timer0.OCR0A].
    rewrite Q, R, Z.mod_small, low8_small by lia.
    repeat split.
Qed.

Lemma timer0_exact_rate_example :
  exists g h,
    Timer0.prvSetupTimerInterrupt 1 2 0 1 16384000 1000 16
      (mkPortVars 0 0, Timer0.mkHw 0 0 0 0) = Some (g, h)
    /\ portTickRateHz g = 1000 /\ Timer0.OCR0A h = 15.
Proof.
  destruct (timer0_exact_rate 1 2 0 1 1000 16 16 (mkPortVars 0 0) (Timer0.mkHw 0 0 0 0))
    as [g [h [E [A [_ B]]]]].
  - vm_compute. split; reflexivity.
  - lia.
  - vm_compute. reflexivity.
  - exists g, h. split; [exact E | split; [exact A | exact B]].
Defined.

Lemma timer0_setup_hw WGM01 CS02 CS00 OCIE0A clock rate bits g0 h0 g h :
  Timer0.prvSetupTimerInterrupt WGM01 CS02 CS00 OCIE0A clock rate bits (g0, h0)
    = Some (g, h) ->
  Timer0.TCCR0A h = uint8 (_BV WGM01)
  /\ Timer0.TCCR0B h = uint8 (Z.lor (_BV CS02) (_BV CS00))
  /\ Timer0.TIMSK0 h = uint8 (Z.lor (Timer0.TIMSK0 h0) (uint8 (_BV OCIE0A))).
Proof.
  unfold Timer0.prvSetupTimerInterrupt.
  destruct (rate =? 0); [discriminate |].
  match goal with |- context [if ?c then None else _] => destruct c end;
    [discriminate |].
  intros H. injection H as _ <-. repeat split.
Qed.

(** When the set-up is defined it selects clear-on-compare-match and the
    prescaler 1024, enables the compare-match A interrupt, and keeps every
    other bit of the interrupt mask. *)
Theorem timer0_setup_enables_only_compare_match_A
    (WGM01 CS02 CS00 OCIE0A clock rate bits : Z)
    (g0 g : port_vars) (h0 h : Timer0.hw) :
  0 <= WGM01 < 8 -> 0 <= CS02 < 8 -> 0 <= CS00 < 8 -> 0 <= OCIE0A < 8 ->
  Timer0.prvSetupTimerInterrupt WGM01 CS02 CS00 OCIE0A clock rate bits (g0, h0)
    = Some (g, h) ->
  Z.testbit (Timer0.TIMSK0 h) OCIE0A = true
  /\ (forall i, 0 <= i < 8 -> i <> OCIE0A ->
        Z.testbit (Timer0.TIMSK0 h) i = Z.testbit (Timer0.TIMSK0 h0) i)
  /\ (forall i, 0 <= i -> Z.testbit (Timer0.TCCR0A h) i = (i =? WGM01))
  /\ (forall i, 0 <= i -> Z.testbit (Timer0.TCCR0B h) i = (i =? CS02) || (i =? CS00)).
Proof.
  intros HW H2 H0 HO Hs.
  destruct (timer0_setup_hw _ _ _ _ _ _ _ _ _ _ _ Hs) as [A [B C]].
  assert (BVb : forall b i, 0 <= b < 8 -> 0 <= i ->
            Z.testbit (uint8 (_BV b)) i = (i =? b)).
  { intros b i Hb Hi. rewrite uint8_bit.
    destruct (Z.eqb_spec i b) as [-> | Hne].
    - rewrite BV_bit by lia.
      assert (E : (b <? 8) = true) by (apply Z.ltb_lt; lia). rewrite E. reflexivity.
    - rewrite BV_other_bit by lia. btauto. }
  split; [| split; [| split]].
  - rewrite C, uint8_low_bits, Z.lor_spec, BVb, Z.eqb_refl by lia. btauto.
  - intros i Hi Hne. rewrite C, uint8_low_bits, Z.lor_spec, BVb by lia.
    destruct (Z.eqb_spec i OCIE0A); [contradiction |]. btauto.
  - intros i Hi. rewrite A. apply BVb; lia.
  - intros i Hi. rewrite B, uint8_lor, Z.lor_spec, !BVb by lia. reflexivity.
Qed.

Lemma timer0_setup_enables_only_compare_match_A_example :
  exists g h,
    Timer0.prvSetupTimerInterrupt 1 2 0 1 16000000 1000 16
      (mkPortVars 0 0, Timer0.mkHw 0 0 0 0x05) = Some (g, h)
    /\ Z.testbit (Timer0.TIMSK0 h) 1 = true
    /\ Z.testbit (Timer0.TIMSK0 h) 2 = true.
Proof.
  eexists. eexists. split; [vm_compute; reflexivity |].
  destruct (timer0_setup_enables_only_compare_match_A 1 2 0 1 16000000 1000 16
              (mkPortVars 0 0) (mkPortVars 1041 1041)
              (Timer0.mkHw 0 0 0 0x05) (Timer0.mkHw 14 2 5 7)) as [A [B _]];
    try lia.
  - vm_compute. reflexivity.
  - split; [exact A |]. rewrite B by lia. reflexivity.
Defined.

(** vPortEndScheduler() for Timer0 clears the three interrupt enables of
    Timer0, keeps the other bits of the mask and the other registers; so
    after a set-up followed by it the compare-match A interrupt is
    disabled again. *)
Theorem vPortEndScheduler_disables_timer0_interrupts
    (OCIE0B OCIE0A TOIE0 : Z) (h : Timer0.hw) :
  0 <= OCIE0B -> 0 <= OCIE0A -> 0 <= TOIE0 ->
  let h' := Timer0.vPortEndScheduler OCIE0B OCIE0A TOIE0 h in
  Z.testbit (Timer0.TIMSK0 h') OCIE0B = false
  /\ Z.testbit (Timer0.TIMSK0 h') OCIE0A = false
  /\ Z.testbit (Timer0.TIMSK0 h') TOIE0 = false
  /\ (forall i, 0 <= i < 8 -> i <> OCIE0B -> i <> OCIE0A -> i <> TOIE0 ->
        Z.testbit (Timer0.TIMSK0 h') i = Z.testbit (Timer0.TIMSK0 h) i)
  /\ Timer0.OCR0A h' = Timer0.OCR0A h
  /\ Timer0.TCCR0A h' = Timer0.TCCR0A h
  /\ Timer0.TCCR0B h' = Timer0.TCCR0B h.
Proof.
  intros HB HA HT h'.
  assert (Hbit : forall i, 0 <= i ->
            Z.testbit (Timer0.TIMSK0 h') i
            = (i <? 8) && (Z.testbit (Timer0.TIMSK0 h) i
                           && negb ((Z.testbit (_BV OCIE0B) i || Z.testbit (_BV OCIE0A) i)
                                    || Z.testbit (_BV TOIE0) i))).
  { intros i Hi. unfold h', Timer0.vPortEndScheduler. cbn [Timer0.TIMSK0].
    rewrite uint8_bit, Z.land_spec, Z.lnot_spec, !Z.lor_spec by exact Hi.
    reflexivity. }
  split; [| split; [| split; [| split]]].
  - rewrite Hbit, (BV_bit OCIE0B) by lia. btauto.
  - rewrite Hbit, (BV_bit OCIE0A) by lia. btauto.
  - rewrite Hbit, (BV_bit TOIE0) by lia. btauto.
  - intros i Hi H1 H2 H3. rewrite Hbit by lia.
    rewrite !BV_other_bit by lia.
    assert (E : (i <? 8) = true) by (apply Z.ltb_lt; lia). rewrite E. btauto.
  - repeat split.
Qed.

Lemma vPortEndScheduler_after_setup_example :
  exists g h,
    Timer0.prvSetupTimerInterrupt 1 2 0 1 16000000 1000 16
      (mkPortVars 0 0, Timer0.mkHw 0 0 0 0) = Some (g, h)
    /\ Z.testbit (Timer0.TIMSK0 h) 1 = true
    /\ Z.testbit (Timer0.TIMSK0 (Timer0.vPortEndScheduler 2 1 0 h)) 1 = false.
Proof.
  eexists. eexists. split; [vm_compute; reflexivity |].
  destruct (vPortEndScheduler_disables_timer0_interrupts 2 1 0 (Timer0.mkHw 14 2 5 2))
    as [_ [A _]]; try lia.
  split; [reflexivity | exact A].
Defined.
